(** * Generic CRUD engine of [app/crud/__init__.py]

    A shallow embedding of the pieces of [BaseCRUD] and of the module level
    helpers that the specification of the data access engine talks about:
    the filter compiler [_parse_filters], the transaction wrapper
    [with_session], the mutations [create], [update], [delete], [db_delete]
    and [upsert], the queries [get], [exists], [count], [select] with
    [_apply_sorting] and [get_multi], and the nesting reconciler
    [_nest_join_data] used by [get_joined]; then two callers of the engine,
    [ProjectService.update_project] and [ProjectService.is_del_project] of
    [app/service/project/project.py], and [JwtAuthMiddleware.authenticate] of
    [app/middlewares/jwt_auth_middleware.py]. *)

From Stdlib Require Import String Ascii List Bool ZArith Arith Lia DecimalString.
Import ListNotations.
Open Scope string_scope.
Open Scope list_scope.
Set Warnings "-register-all".

(** ** Python values *)

(** The values flowing through the engine: scalars, the three sequence
    types accepted by the multi valued operators, dicts (insertion ordered
    association lists, as Python dicts are), other objects with their
    attributes (sessions, pydantic instances, ORM rows) and classes (a
    pydantic schema with its field names). *)
Inductive pyval : Type :=
| PNone
| PBool (b : bool)
| PInt (z : Z)
| PStr (s : string)
| PList (l : list pyval)
| PTuple (l : list pyval)
| PSet (l : list pyval)
| PDict (d : list (string * pyval))
| PObj (cls : string) (attrs : list (string * pyval))
| PType (name : string) (fields : list string).

(** Python exceptions the engine raises or lets through.  [CancelledError]
    and [KeyboardInterrupt] derive from [BaseException] only (Python 3.8+);
    every other one is an [Exception].  [StorageError] stands for the
    errors of SQLAlchemy and of the database driver, [ValidationError] for
    pydantic's. *)
Inductive exn : Type :=
| ValueError (msg : string)
| TypeError (msg : string)
| NameError (name : string)
| KeyError (key : string)
| IndexError (msg : string)
| AttributeError (msg : string)
| StorageError (msg : string)
| ValidationError (msg : string)
| DBError (method : string) (cause : exn)
| CancelledError
| KeyboardInterrupt.

Definition is_Exception (e : exn) : bool :=
  match e with
  | CancelledError | KeyboardInterrupt => false
  | _ => true
  end.

(** [type(v).__name__] *)
Definition py_type_name (v : pyval) : string :=
  match v with
  | PNone => "NoneType"
  | PBool _ => "bool"
  | PInt _ => "int"
  | PStr _ => "str"
  | PList _ => "list"
  | PTuple _ => "tuple"
  | PSet _ => "set"
  | PDict _ => "dict"
  | PObj c _ => c
  | PType _ _ => "ModelMetaclass"
  end.

(** The [AttributeError] of [v.n] when [v] has no attribute [n]. *)
Definition no_attribute (v : pyval) (n : string) : exn :=
  AttributeError
    (match v with
     | PType c _ => "type object '" ++ c ++ "' has no attribute '" ++ n ++ "'"
     | _ => "'" ++ py_type_name v ++ "' object has no attribute '" ++ n ++ "'"
     end).

(** Outcome of a Python call: a value or a raised exception. *)
Inductive result (A : Type) : Type :=
| Ok (a : A)
| Raise (e : exn).
Arguments Ok {A} a.
Arguments Raise {A} e.

Definition bind {A B} (r : result A) (f : A -> result B) : result B :=
  match r with
  | Ok a => f a
  | Raise e => Raise e
  end.

Notation "'let*' x := r 'in' k" := (bind r (fun x => k))
  (at level 200, x name, r at level 100, k at level 200).

(** ** Python dicts as ordered association lists *)

Definition dict := list (string * pyval).

Fixpoint dict_get (d : dict) (k : string) : option pyval :=
  match d with
  | [] => None
  | (k', v) :: d' => if String.eqb k k' then Some v else dict_get d' k
  end.

Definition dict_mem (d : dict) (k : string) : bool :=
  match dict_get d k with Some _ => true | None => false end.

(** [d[k] = v]: an existing key keeps its position, a new key goes last. *)
Fixpoint dict_set (d : dict) (k : string) (v : pyval) : dict :=
  match d with
  | [] => [(k, v)]
  | (k', v') :: d' =>
      if String.eqb k k' then (k', v) :: d' else (k', v') :: dict_set d' k v
  end.

(** ** String helpers *)

(** [s.startswith(p)] *)
Definition startswith (s p : string) : bool := String.prefix p s.

(** [s[n:]] *)
Definition slice_from (n : nat) (s : string) : string :=
  substring n (String.length s - n) s.

(** [p in s] for strings *)
Fixpoint str_contains (p s : string) : bool :=
  match s with
  | EmptyString => String.prefix p s
  | String _ s' => String.prefix p s || str_contains p s'
  end.

(** Start indices of every occurrence of ["__"] in [s]. *)
Fixpoint sep_positions (s : string) (i : nat) : list nat :=
  match s with
  | EmptyString => []
  | String _ s' =>
      (if String.prefix "__" s then [i] else []) ++ sep_positions s' (S i)
  end.

(** [s.rsplit("__", 1)] for a string containing ["__"]: cut at the
    right-most occurrence. *)
Definition rsplit_sep (s : string) : string * string :=
  match rev (sep_positions s 0) with
  | [] => (s, "")
  | i :: _ => (substring 0 i s, slice_from (i + 2) s)
  end.

(** [s.rstrip("_")] *)
Definition rstrip_underscore (s : string) : string :=
  let fix drop (l : list ascii) :=
    match l with
    | "_"%char :: l' => drop l'
    | _ => l
    end in
  string_of_list_ascii (rev (drop (rev (list_ascii_of_string s)))).

(** ** Entities *)

(** A mapped SQLAlchemy class: [model_attrs] are the names [getattr(model,
    name, None)] finds (the columns, other column expressions such as
    hybrid properties, and the plain class attributes of a declarative
    model such as [metadata] and [registry]), [model_columns] its table
    columns, [primary_keys] the mapper's primary key columns, [model_module]
    the module defining the class, and [plain_attrs] the class attributes
    that are not SQL expressions, each with its [repr]; [relationships]
    lists the relationship attributes among [model_attrs], each with its
    [uselist] (whether it holds a collection). *)
Record model : Type := Model {
  model_name : string;
  tablename : string;
  model_attrs : list string;
  model_columns : list string;
  primary_keys : list string;
  model_module : string;
  plain_attrs : list (string * string);
  relationships : list (string * bool)
}.

Definition getattr (m : model) (name : string) : option string :=
  if existsb (String.eqb name) (model_attrs m) then Some name else None.

(** ** Filter compiler *)

(** A compiled predicate: [PApp op attr v] is [_SUPPORTED_FILTERS[op](attr)(v)],
    [PEq attr v] is [attr == v], [POr ps] is [or_( *ps )]. *)
Inductive pred : Type :=
| PApp (op : string) (attr : string) (v : pyval)
| PEq (attr : string) (v : pyval)
| POr (ps : list pred).

Definition _SUPPORTED_FILTERS : list string :=
  ["gt"; "lt"; "gte"; "lte"; "ne"; "is"; "is_not"; "like"; "notlike";
   "ilike"; "notilike"; "startswith"; "endswith"; "contains"; "match";
   "between"; "in"; "not_in"].

Definition is_seq (v : pyval) : bool :=
  match v with PList _ | PTuple _ | PSet _ => true | _ => false end.

Definition multi_valued (op : string) : bool :=
  existsb (String.eqb op) ["in"; "not_in"; "between"].

(** [_get_sqlalchemy_filter(operator, value)]: [Some op] stands for the
    looked-up operator constructor, [None] for [dict.get]'s default. *)
Definition _get_sqlalchemy_filter (operator : string) (value : pyval)
  : result (option string) :=
  if multi_valued operator && negb (is_seq value)
  then Raise (ValueError ("<" ++ operator ++ "> filter must be tuple, list or set"))
  else Ok (if existsb (String.eqb operator) _SUPPORTED_FILTERS
           then Some operator else None).

(** The comprehension of the [__or] branch: each entry's operator is
    resolved with the whole mapping [value] as second argument, as the
    source does. *)
Fixpoint or_entries (column_ : string) (value : pyval) (items : dict)
  : result (list pred) :=
  match items with
  | [] => Ok []
  | (or_key, or_value) :: rest =>
      let* f := _get_sqlalchemy_filter or_key value in
      let* ps := or_entries column_ value rest in
      Ok (match f with
          | Some op => PApp op column_ or_value :: ps
          | None => ps
          end)
  end.

(** [column_ == value] for a value that is not [None]: a column or another
    class attribute gives the predicate; a relationship attribute holding a
    collection refuses any comparison ([InvalidRequestError]), and one
    holding a single object accepts only a mapped instance (an object here)
    and otherwise raises [ArgumentError]. *)
Definition compare_eq (m : model) (key column_ : string) (value : pyval)
  : result (list pred) :=
  match find (fun r => String.eqb (fst r) key) (relationships m) with
  | Some (_, true) =>
      Raise (StorageError ("Can't compare a collection to an object or collection; "
                           ++ "use contains() to test for membership."))
  | Some (_, false) =>
      match value with
      | PObj _ _ => Ok [PEq column_ value]
      | _ => Raise (StorageError ("Mapped instance expected for relationship comparison to "
                                  ++ "object.   Classes, queries and other SQL elements are not "
                                  ++ "accepted in this context; for comparison with a subquery, use "
                                  ++ model_name m ++ "." ++ key ++ ".has(" ++ "**criteria)."))
      end
  | None => Ok [PEq column_ value]
  end.

Definition parse_one (m : model) (key : string) (value : pyval)
  : result (list pred) :=
  if str_contains "__" key then
    let (field_name, op) := rsplit_sep key in
    match getattr m field_name with
    | None => Raise (ValueError ("Invalid filter column: " ++ field_name))
    | Some column_ =>
        if String.eqb op "or" then
          match value with
          | PDict items => let* ps := or_entries column_ value items in Ok [POr ps]
          | _ => Raise (no_attribute value "items")
          end
        else
          let* f := _get_sqlalchemy_filter op value in
          match f with
          | Some o =>
              (* [column.between(value)] lacks its second bound *)
              if String.eqb o "between"
              then Raise (TypeError "ColumnOperators.between() missing 1 required positional argument: 'cright'")
              else Ok [PApp o column_ value]
          | None => Ok []
          end
    end
  else
    match getattr m key with
    | Some column_ =>
        match value with PNone => Ok [] | _ => compare_eq m key column_ value end
    | None => Ok []
    end.

(** [_parse_filters(model, **kwargs)] *)
Fixpoint _parse_filters (m : model) (kwargs : dict) : result (list pred) :=
  match kwargs with
  | [] => Ok []
  | (key, value) :: rest =>
      let* ps := parse_one m key value in
      let* qs := _parse_filters m rest in
      Ok (ps ++ qs)
  end.

(** ** Nesting reconciler *)

(** The part of a [JoinConfig] the reconciler reads; an absent
    [join_prefix] is the empty string (both are falsy in the source). *)
Record join_config : Type := JoinConfig {
  join_model : model;
  join_prefix : string;
  relationship_type : string
}.

Definition temp_prefix : string := "joined__".

Definition nested_key_of (j : join_config) : string :=
  if String.eqb (join_prefix j) "" then tablename (join_model j)
  else rstrip_underscore (join_prefix j).

Definition full_prefix (j : join_config) : string :=
  temp_prefix ++ join_prefix j.

Definition is_one_to_many (j : join_config) : bool :=
  String.eqb (relationship_type j) "one-to-many".

(** [_get_primary_key(model)]: the first mapper primary key column. *)
Definition _get_primary_key (m : model) : result string :=
  match primary_keys m with
  | [] => Raise (IndexError "list index out of range")
  | k :: _ => Ok k
  end.

Definition split_last {A} (l : list A) : option (list A * A) :=
  match rev l with
  | [] => None
  | x :: r => Some (rev r, x)
  end.

(** [_handle_one_to_many]: the list only ever holds dicts built here; any
    other last element makes the item assignment fail with [TypeError]. *)
Definition _handle_one_to_many (nested_data : dict) (nested_key nested_field : string)
  (value : pyval) : result dict :=
  let items :=
    match dict_get nested_data nested_key with
    | Some (PList l) => l
    | _ => []
    end in
  match split_last items with
  | None => Ok (dict_set nested_data nested_key (PList [PDict [(nested_field, value)]]))
  | Some (init, PDict last) =>
      if dict_mem last nested_field
      then Ok (dict_set nested_data nested_key
                 (PList (items ++ [PDict [(nested_field, value)]])))
      else Ok (dict_set nested_data nested_key
                 (PList (init ++ [PDict (dict_set last nested_field value)])))
  | Some (_, _) => Raise (TypeError "object does not support item assignment")
  end.

Definition _handle_one_to_one (nested_data : dict) (nested_key nested_field : string)
  (value : pyval) : dict :=
  let obj :=
    match dict_get nested_data nested_key with
    | Some (PDict o) => o
    | _ => []
    end in
  dict_set nested_data nested_key (PDict (dict_set obj nested_field value)).

(** First join whose temporary marker plus prefix starts [key]. *)
Definition find_join (joins : list join_config) (key : string) : option join_config :=
  find (fun j => startswith key (full_prefix j)) joins.

(** One iteration of the [for key, value in data.items()] loop. *)
Definition place_column (joins : list join_config) (nested_data : dict)
  (kv : string * pyval) : result dict :=
  let (key, value) := kv in
  match find_join joins key with
  | Some j =>
      let nested_field := slice_from (String.length (full_prefix j)) key in
      if is_one_to_many j
      then _handle_one_to_many nested_data (nested_key_of j) nested_field value
      else Ok (_handle_one_to_one nested_data (nested_key_of j) nested_field value)
  | None =>
      let stripped_key :=
        if startswith key temp_prefix
        then slice_from (String.length temp_prefix) key else key in
      Ok (dict_set nested_data stripped_key value)
  end.

Fixpoint assemble (joins : list join_config) (nested_data : dict) (data : dict)
  : result dict :=
  match data with
  | [] => Ok nested_data
  | kv :: rest =>
      let* nd := place_column joins nested_data kv in
      assemble joins nd rest
  end.

(** [any(item[pk] is None for item in items)], evaluated lazily. *)
Fixpoint any_pk_none (pk : string) (items : list pyval) : result bool :=
  match items with
  | [] => Ok false
  | PDict o :: rest =>
      match dict_get o pk with
      | None => Raise (KeyError pk)
      | Some PNone => Ok true
      | Some _ => any_pk_none pk rest
      end
  | _ :: _ => Raise (TypeError "indices must be integers or slices, not str")
  end.

(** One iteration of the final [for join in join_definitions] loop. *)
Definition collapse_join (nested_data : dict) (j : join_config) : result dict :=
  let* join_primary_key := _get_primary_key (join_model j) in
  let nested_key := nested_key_of j in
  let* nd :=
    if is_one_to_many j && dict_mem nested_data nested_key then
      match dict_get nested_data nested_key with
      | Some (PList items) =>
          let* b := any_pk_none join_primary_key items in
          Ok (if b then dict_set nested_data nested_key (PList []) else nested_data)
      | _ => Ok nested_data
      end
    else Ok nested_data in
  match dict_get nd nested_key with
  | Some (PDict o) =>
      match dict_get o join_primary_key with
      | Some PNone => Ok (dict_set nd nested_key PNone)
      | _ => Ok nd
      end
  | _ => Ok nd
  end.

Fixpoint collapse_all (joins : list join_config) (nested_data : dict) : result dict :=
  match joins with
  | [] => Ok nested_data
  | j :: js =>
      let* nd := collapse_join nested_data j in
      collapse_all js nd
  end.

(** [_nest_join_data(data, join_definitions, nested_data=nested_data)] *)
Definition _nest_join_data (data : dict) (joins : list join_config)
  (nested_data : dict) : result dict :=
  let* nd := assemble joins nested_data data in
  collapse_all joins nd.

(** The loop of [get_joined] folding every fetched row into one dict. *)
Fixpoint nest_rows (joins : list join_config) (nested_data : dict)
  (data_list : list dict) : result dict :=
  match data_list with
  | [] => Ok nested_data
  | data :: rest =>
      let* nd := _nest_join_data data joins nested_data in
      nest_rows joins nd rest
  end.

(** ** Python calls *)

(** Python truthiness. *)
Definition truthy (v : pyval) : bool :=
  match v with
  | PNone => false
  | PBool b => b
  | PInt z => negb (Z.eqb z 0)
  | PStr s => negb (String.eqb s "")
  | PList l | PTuple l | PSet l => match l with [] => false | _ => true end
  | PDict d => match d with [] => false | _ => true end
  | PObj _ _ | PType _ _ => true
  end.

Definition dict_del (d : dict) (k : string) : dict :=
  filter (fun kv => negb (String.eqb (fst kv) k)) d.

(** [str(n)] of a count. *)
Definition nat_str (n : nat) : string := NilZero.string_of_uint (Nat.to_uint n).

Definition plural (n : nat) : string := if (n =? 1)%nat then "" else "s".

(** The keyword loop of CPython's argument binding: a keyword naming a
    parameter (every parameter after [cls] can be passed by keyword) fills
    it, one already filled is a [TypeError]; any other keyword goes to the
    [**kwargs] rest. *)
Fixpoint bind_kw (qualname : string) (names : list string) (kw : dict) (bound extra : dict)
  : result (dict * dict) :=
  match kw with
  | [] => Ok (bound, extra)
  | (k, v) :: kw' =>
      if existsb (String.eqb k) names then
        if dict_mem bound k
        then Raise (TypeError (qualname ++ "() got multiple values for argument '" ++ k ++ "'")%string)
        else bind_kw qualname names kw' (bound ++ [(k, v)]) extra
      else bind_kw qualname names kw' bound (extra ++ [(k, v)])
  end.

(** CPython's [too_many_positional] for [f(cls, p1=d1, ..., pn=dn, *,
    ...)]: [given] counts [cls], [kwonly_given] the keyword-only parameters
    already filled by keyword. *)
Definition too_many_positional (qualname : string) (npos given kwonly_given : nat) : string :=
  let co_argcount := S npos in
  let sig := if (0 <? npos)%nat then ("from 1 to " ++ nat_str co_argcount)%string
             else nat_str co_argcount in
  let plural_sig := if (0 <? npos)%nat then "s" else plural co_argcount in
  let kwonly_sig :=
    if (kwonly_given =? 0)%nat then ""
    else (" positional argument" ++ plural given ++ " (and " ++ nat_str kwonly_given
          ++ " keyword-only argument" ++ plural kwonly_given ++ ")")%string in
  (qualname ++ "() takes " ++ sig ++ " positional argument" ++ plural_sig ++ " but "
   ++ nat_str given ++ kwonly_sig ++ " "
   ++ (if (given =? 1)%nat && (kwonly_given =? 0)%nat then "was" else "were") ++ " given")%string.

(** CPython's [format_missing]: the quoted names, joined as in
    ['a'], ['a' and 'b'], ['a', 'b', and 'c']. *)
Definition format_missing (names : list string) : string :=
  let q := map (fun n => ("'" ++ n ++ "'")%string) names in
  match q with
  | [a] => a
  | [a; b] => (a ++ " and " ++ b)%string
  | _ =>
      match rev q with
      | b :: a :: r => (String.concat ", " (rev r) ++ ", " ++ a ++ ", and " ++ b)%string
      | _ => ""
      end
  end.

(** Binding of a call [BaseCRUD.fname(cls, *args, **kw)] to the signature
    [fname(cls, p1=..., ..., *, k1, ..., **kwargs)], in CPython's order:
    the positional arguments fill [pos_names] as far as they go, then the
    keyword loop, then the check of the number of positional arguments,
    then the missing keyword-only parameters ([required]: those without a
    default).  Every positional parameter after [cls] has a default.
    Returns the bound parameters and the [**kwargs] rest. *)
Definition bind_sig (fname : string) (pos_names kw_only required : list string)
  (args : list pyval) (kw : dict) : result (dict * dict) :=
  let qualname := ("BaseCRUD." ++ fname)%string in
  let* be := bind_kw qualname (pos_names ++ kw_only) kw
               (combine (firstn (List.length args) pos_names) args) [] in
  let (bound, extra) := be in
  if Nat.ltb (List.length pos_names) (List.length args)
  then Raise (TypeError (too_many_positional qualname (List.length pos_names)
                           (S (List.length args))
                           (List.length (filter (dict_mem bound) kw_only))))
  else
    match filter (fun k => negb (dict_mem bound k)) required with
    | [] => Ok (bound, extra)
    | missing =>
        Raise (TypeError (qualname ++ "() missing " ++ nat_str (List.length missing)
                          ++ " required keyword-only argument" ++ plural (List.length missing)
                          ++ ": " ++ format_missing missing)%string)
    end.

Definition param (bound : dict) (k : string) (default : pyval) : pyval :=
  match dict_get bound k with Some v => v | None => default end.

(** ** Storage world and the operation monad *)

Inductive event : Type :=
| OpenSession (s : nat)
| Begin (s : nat)
| Commit (s : nat)
| Rollback (s : nat)
| CloseSession (s : nat).

(** [logger.error(...)] of the wrapper: model, method, args, kwargs, error. *)
Record log_entry : Type := LogError {
  log_model : string;
  log_method : string;
  log_args : list pyval;
  log_kwargs : dict;
  log_error : exn
}.

(** The entity's table (rows as column dicts), the session events, the
    error log, the next fresh session id and the value [datetime.now()]
    returns. *)
Record world : Type := World {
  table : list dict;
  events : list event;
  log : list log_entry;
  next_session : nat;
  clock : pyval
}.

Definition M (A : Type) : Type := world -> result A * world.

Definition ret {A} (a : A) : M A := fun w => (Ok a, w).
Definition throw {A} (e : exn) : M A := fun w => (Raise e, w).
Definition lift {A} (r : result A) : M A := fun w => (r, w).

Definition mbind {A B} (m : M A) (f : A -> M B) : M B :=
  fun w =>
    match m w with
    | (Ok a, w') => f a w'
    | (Raise e, w') => (Raise e, w')
    end.

Notation "'let!' x := m 'in' k" := (mbind m (fun x => k))
  (at level 200, x name, m at level 100, k at level 200).

Definition set_table (t : list dict) : M unit :=
  fun w => (Ok tt, World t (events w) (log w) (next_session w) (clock w)).

Definition get_world : M world := fun w => (Ok w, w).

Definition emit (e : event) : M unit :=
  fun w => (Ok tt, World (table w) (events w ++ [e]) (log w) (next_session w) (clock w)).

(** The generic class: [__model__] and the configurable column names. *)
Record crud : Type := Crud {
  __model__ : model;
  is_deleted_column : string;
  deleted_at_column : string;
  updated_at_column : string
}.

Definition BaseCRUD_of (m : model) : crud :=
  Crud m "is_deleted" "deleted_at" "updated_at".

(** ** [with_session] *)

Definition session_obj (s : nat) : pyval := PObj "AsyncSession" [("id", PInt (Z.of_nat s))].

(** [with_session(method)] applied to [cls] and called with [*args,
    **kwargs]: a truthy [session] keyword is reused; otherwise a fresh
    session is opened, a transaction begun, the session stored into
    [kwargs] and the body run inside both context managers (commit on
    normal exit, rollback on exception, then close).  [except Exception]
    logs and raises [DBError]; other exceptions pass through. *)
Definition with_session {A} (cls : crud) (method_name : string)
  (method : list pyval -> dict -> M A) (args : list pyval) (kwargs : dict) : M A :=
  fun w =>
    let reuse :=
      match dict_get kwargs "session" with Some sess => truthy sess | None => false end in
    let '(r, w', kwargs') :=
      if reuse then
        let (r, w') := method args kwargs w in (r, w', kwargs)
      else
        let s := next_session w in
        let w1 := World (table w) (events w ++ [OpenSession s; Begin s]) (log w)
                        (S s) (clock w) in
        let kwargs1 := dict_set kwargs "session" (session_obj s) in
        let (r, w2) := method args kwargs1 w1 in
        let closing :=
          match r with Ok _ => [Commit s; CloseSession s]
                  | Raise _ => [Rollback s; CloseSession s] end in
        (r, World (table w2) (events w2 ++ closing) (log w2) (next_session w2) (clock w2),
         kwargs1) in
    match r with
    | Ok a => (Ok a, w')
    | Raise e =>
        if is_Exception e then
          (Raise (DBError method_name e),
           World (table w') (events w')
                 (log w' ++ [LogError (model_name (__model__ cls)) method_name args kwargs' e])
                 (next_session w') (clock w'))
        else (Raise e, w')
    end.

(** Structural equality of Python values ([==] on plain data). *)
Fixpoint pyval_eqb (a b : pyval) : bool :=
  let fix list_eqb (l l' : list pyval) : bool :=
    match l, l' with
    | [], [] => true
    | x :: r, x' :: r' => pyval_eqb x x' && list_eqb r r'
    | _, _ => false
    end in
  let fix dict_eqb (d d' : list (string * pyval)) : bool :=
    match d, d' with
    | [], [] => true
    | (k, x) :: r, (k', x') :: r' => String.eqb k k' && pyval_eqb x x' && dict_eqb r r'
    | _, _ => false
    end in
  match a, b with
  | PNone, PNone => true
  | PBool x, PBool y => Bool.eqb x y
  | PInt x, PInt y => Z.eqb x y
  | PStr x, PStr y => String.eqb x y
  | PList l, PList l' | PTuple l, PTuple l' | PSet l, PSet l' => list_eqb l l'
  | PDict d, PDict d' => dict_eqb d d'
  | PObj c d, PObj c' d' => String.eqb c c' && dict_eqb d d'
  | PType n f, PType n' f' =>
      String.eqb n n' && (List.length f =? List.length f')%nat
      && forallb (fun p => String.eqb (fst p) (snd p)) (combine f f')
  | _, _ => false
  end.

Definition mem_str (k : string) (l : list string) : bool := existsb (String.eqb k) l.

(** [session.commit()] on the session object held in the call. *)
Definition session_commit (sess : pyval) : M unit :=
  match sess with
  | PObj _ attrs =>
      match dict_get attrs "id" with
      | Some (PInt z) => emit (Commit (Z.to_nat z))
      | _ => ret tt
      end
  | _ => ret tt
  end.

(** ** Statements and sorting *)

(** [asc(column)] and [desc(column)] in an [ORDER BY]. *)
Inductive order_clause : Type :=
| Asc (col : string)
| Desc (col : string).

(** [select( *to_select).filter( *filters)] with its [ORDER BY], [OFFSET]
    and [LIMIT]; [to_select] is kept as the names of the selected columns. *)
Record select_stmt : Type := SelectStmt {
  stmt_model : model;
  stmt_columns : list string;
  stmt_filters : list pred;
  stmt_order : list order_clause;
  stmt_offset : option nat;
  stmt_limit : option nat
}.

(** [stmt.order_by(c)], [stmt.offset(n)], [stmt.limit(n)] *)
Definition order_by (stmt : select_stmt) (c : order_clause) : select_stmt :=
  SelectStmt (stmt_model stmt) (stmt_columns stmt) (stmt_filters stmt)
             (stmt_order stmt ++ [c]) (stmt_offset stmt) (stmt_limit stmt).

Definition with_offset (stmt : select_stmt) (n : nat) : select_stmt :=
  SelectStmt (stmt_model stmt) (stmt_columns stmt) (stmt_filters stmt)
             (stmt_order stmt) (Some n) (stmt_limit stmt).

Definition with_limit (stmt : select_stmt) (n : nat) : select_stmt :=
  SelectStmt (stmt_model stmt) (stmt_columns stmt) (stmt_filters stmt)
             (stmt_order stmt) (stmt_offset stmt) (Some n).

(** [order in ["asc", "desc"]] *)
Definition is_sort_order (o : pyval) : bool :=
  pyval_eqb o (PStr "asc") || pyval_eqb o (PStr "desc").

(** [repr(v)] and [str(v)] of the plain values an f-string formats; an
    object or a class prints as its name in angle brackets. *)
Section Repr.
Local Open Scope string_scope.

Fixpoint py_repr (v : pyval) : string :=
  let fix join (l : list pyval) : string :=
    match l with
    | [] => ""
    | [x] => py_repr x
    | x :: r => py_repr x ++ ", " ++ join r
    end in
  let fix join_items (d : list (string * pyval)) : string :=
    match d with
    | [] => ""
    | [(k, x)] => "'" ++ k ++ "': " ++ py_repr x
    | (k, x) :: r => "'" ++ k ++ "': " ++ py_repr x ++ ", " ++ join_items r
    end in
  match v with
  | PNone => "None"
  | PBool b => if b then "True" else "False"
  | PInt z => NilZero.string_of_int (Z.to_int z)
  | PStr s => "'" ++ s ++ "'"
  | PList l => "[" ++ join l ++ "]"
  | PTuple [x] => "(" ++ py_repr x ++ ",)"
  | PTuple l => "(" ++ join l ++ ")"
  | PSet [] => "set()"
  | PSet l => "{" ++ join l ++ "}"
  | PDict d => "{" ++ join_items d ++ "}"
  | PObj c _ => "<" ++ c ++ " object>"
  | PType n _ => "<class '" ++ n ++ "'>"
  end.

Definition py_str (v : pyval) : string :=
  match v with PStr s => s | _ => py_repr v end.

End Repr.

(** The [repr] of the plain class attribute [n] of [m], if it is one. *)
Definition plain_repr (m : model) (n : string) : option string :=
  match find (fun kv => String.eqb (fst kv) n) (plain_attrs m) with
  | Some (_, r) => Some r
  | None => None
  end.

(** The final loop of [_apply_sorting]: [getattr(cls.__model__,
    column_name, None)], then [validated_sort_orders[idx]], then
    [asc(column)] or [desc(column)], which coerce their argument to a SQL
    expression and refuse a plain class attribute with SQLAlchemy's
    [ArgumentError]. *)
Fixpoint sorting_loop (m : model) (stmt : select_stmt) (sort_columns orders : list pyval)
  : result select_stmt :=
  match sort_columns with
  | [] => Ok stmt
  | column_name :: rest =>
      let* column :=
        match column_name with
        | PStr n =>
            match getattr m n with
            | Some c => Ok c
            | None => Raise (ValueError ("Invalid column name: " ++ n))
            end
        | v => Raise (TypeError ("attribute name must be string, not '" ++ py_type_name v ++ "'"))
        end in
      match orders with
      | [] => Raise (IndexError "list index out of range")
      | order :: orders' =>
          let next :=
            sorting_loop m (order_by stmt (if pyval_eqb order (PStr "asc")
                                           then Asc column else Desc column))
                         rest orders' in
          if mem_str column (model_columns m) then next
          else match plain_repr m column with
               | Some r =>
                   Raise (StorageError ("GROUP BY / OF / etc. expression expected, got "
                                        ++ r ++ "."))
               | None => next
               end
      end
  end.

(** [BaseCRUD._apply_sorting(stmt, sort_columns, sort_orders)] *)
Definition _apply_sorting (cls : crud) (stmt : select_stmt) (sort_columns sort_orders : pyval)
  : result select_stmt :=
  if truthy sort_orders && negb (truthy sort_columns)
  then Raise (ValueError "Sort orders provided without corresponding sort columns.")
  else if truthy sort_columns then
    let sort_columns := match sort_columns with PList l => l | c => [c] end in
    let* validated_sort_orders :=
      if truthy sort_orders then
        let sort_orders :=
          match sort_orders with
          | PList l => l
          | o => repeat o (List.length sort_columns)
          end in
        if negb (List.length sort_columns =? List.length sort_orders)%nat
        then Raise (ValueError "The length of sort_columns and sort_orders must match.")
        else match find (fun o => negb (is_sort_order o)) sort_orders with
             | Some order =>
                 Raise (ValueError ("Invalid sort order: " ++ py_str order
                                    ++ ". Only 'asc' or 'desc' are allowed.")%string)
             | None => Ok sort_orders
             end
      else Ok (repeat (PStr "asc") (List.length sort_columns)) in
    sorting_loop (__model__ cls) stmt sort_columns validated_sort_orders
  else Ok stmt.

(** The field names of [_extract_matching_columns_from_schema(model,
    schema)]: the keys of [schema.model_fields] the model has
    ([hasattr]), or every column when the schema is falsy.  A pydantic
    instance exposes the [model_fields] of its class; any other value has
    no such attribute. *)
Definition to_select (m : model) (schema : pyval) : result (list string) :=
  if truthy schema then
    match schema with
    | PType _ fs => Ok (filter (fun f => mem_str f (model_attrs m)) fs)
    | PObj _ attrs => Ok (filter (fun f => mem_str f (model_attrs m)) (map fst attrs))
    | v => Raise (no_attribute v "model_fields")
    end
  else Ok (model_columns m).

(** [select( *to_select)] coerces each element to a column expression:
    the first plain class attribute is refused with [ArgumentError]. *)
Fixpoint select_columns (m : model) (cols : list string) : result unit :=
  match cols with
  | [] => Ok tt
  | c :: rest =>
      if mem_str c (model_columns m) then select_columns m rest
      else match plain_repr m c with
           | Some r =>
               Raise (StorageError ("Column expression, FROM clause, or other columns clause element expected, got "
                                    ++ r ++ "."))
           | None => select_columns m rest
           end
  end.

(** [int(v)] of a value compared with [0]; [bool] is an [int]. *)
Definition as_int (v : pyval) : option Z :=
  match v with
  | PInt z => Some z
  | PBool b => Some (if b then 1 else 0)%Z
  | _ => None
  end.

(** [v < 0] *)
Definition lt_zero (v : pyval) : result bool :=
  match as_int v with
  | Some z => Ok (z <? 0)%Z
  | None => Raise (TypeError ("'<' not supported between instances of '"
                              ++ py_type_name v ++ "' and 'int'"))
  end.

(** [schema(...)] on a value that is not a class. *)
Definition not_callable (v : pyval) : exn :=
  TypeError ("'" ++ py_type_name v ++ "' object is not callable").

(** [obj.model_dump()] on the [obj] of [create] and [update]: a [PObj]
    stands for a pydantic instance there, its attributes being the fields
    it was given; on the class itself the method lacks its instance. *)
Definition model_dump_of (obj : pyval) : result dict :=
  match obj with
  | PObj _ attrs => Ok attrs
  | PType _ _ => Raise (TypeError "BaseModel.model_dump() missing 1 required positional argument: 'self'")
  | v => Raise (no_attribute v "model_dump")
  end.

(** [for x in v]: the elements of a list, tuple or set, the one-character
    strings of a string, the keys of a dict. *)
Definition py_iter (v : pyval) : result (list pyval) :=
  match v with
  | PList l | PTuple l | PSet l => Ok l
  | PStr s => Ok (map (fun c => PStr (String c EmptyString)) (list_ascii_of_string s))
  | PDict d => Ok (map (fun kv => PStr (fst kv)) d)
  | v => Raise (TypeError ("'" ++ py_type_name v ++ "' object is not iterable"))
  end.

(** ** The storage and the libraries *)

(** What the database, SQLAlchemy, pydantic and the Python runtime decide
    beyond the engine's code: whether a compiled predicate holds on a row;
    how rows are ordered for a non-empty [ORDER BY]; the filters
    [_parse_filters] compiles against a class passed as the [model]
    keyword; the value an [INSERT] stores in a column the new object does
    not set (its default, the next autoincrement key or [NULL]); the
    constraint error, if any, the database raises when a new row is
    flushed into the stored ones; the error the database reports for [RETURNING] a name that is no column; the
    iteration order of a Python set of strings (it follows the strings'
    hashes); and [schema( **row)] for a pydantic class of the given name
    and fields: the instance, or the text of its [ValidationError]. *)
Record env : Type := Env {
  holds : pred -> dict -> bool;
  sort_rows : list order_clause -> list dict -> list dict;
  parse_foreign : pyval -> dict -> result (list pred);
  column_default : model -> string -> list dict -> pyval;
  insert_error : model -> dict -> list dict -> option exn;
  unknown_column : string -> exn;
  set_order : list string -> list string;
  instantiate : string -> list string -> dict -> string + pyval
}.

Section Storage.

Variable E : env.

Definition row_matches (filters : list pred) (r : dict) : bool :=
  forallb (fun p => holds E p r) filters.

(** [cls._parse_filters( **kwargs)]: the parameter [model] of
    [_parse_filters(cls, model=None, **kwargs)] takes a [model] keyword;
    [model or cls.__model__] is the class the filters are compiled against. *)
Definition parse_kwargs (cls : crud) (kwargs : dict) : result (list pred) :=
  match dict_get kwargs "model" with
  | Some v =>
      if truthy v then parse_foreign E v (dict_del kwargs "model")
      else _parse_filters (__model__ cls) (dict_del kwargs "model")
  | None => _parse_filters (__model__ cls) kwargs
  end.

(** [UPDATE ... WHERE filters VALUES values]; the keys that are not columns
    are refused when the statement is compiled, listed in the order of the
    set holding them. *)
Definition exec_update (m : model) (filters : list pred) (values : dict) : M unit :=
  match filter (fun k => negb (mem_str k (model_columns m))) (map fst values) with
  | [] =>
      let! w := get_world in
      set_table (map (fun r => if row_matches filters r
                               then fold_left (fun r kv => dict_set r (fst kv) (snd kv)) values r
                               else r) (table w))
  | unconsumed =>
      throw (StorageError ("Unconsumed column names: " ++ String.concat ", " (set_order E unconsumed)))
  end.

(** [BaseCRUD.select(schema_to_select=..., sort_columns=..., sort_orders=...,
    **kwargs)]: builds the statement, nothing is executed. *)
Definition select (cls : crud) (args : list pyval) (kw : dict) : result select_stmt :=
  let* be := bind_sig "select" [] ["schema_to_select"; "sort_columns"; "sort_orders"] []
               args kw in
  let (bound, kwargs) := be in
  let m := __model__ cls in
  let* cols := to_select m (param bound "schema_to_select" PNone) in
  let* filters := parse_kwargs cls kwargs in
  let* _ := select_columns m cols in
  let stmt := SelectStmt m cols filters [] None None in
  let sort_columns := param bound "sort_columns" PNone in
  if truthy sort_columns
  then _apply_sorting cls stmt sort_columns (param bound "sort_orders" PNone)
  else Ok stmt.

(** Running a [select] statement on the stored rows: [WHERE], [ORDER BY],
    [OFFSET], [LIMIT], then the selected columns of each row. *)
Definition execute_select (stmt : select_stmt) (rows : list dict) : list dict :=
  let hit := filter (row_matches (stmt_filters stmt)) rows in
  let ordered := match stmt_order stmt with [] => hit | o => sort_rows E o hit end in
  let after := match stmt_offset stmt with Some n => skipn n ordered | None => ordered end in
  let page := match stmt_limit stmt with Some n => firstn n after | None => after end in
  map (fun r => map (fun c => (c, param r c PNone)) (stmt_columns stmt)) page.

Definition count_body (cls : crud) (args : list pyval) (kw : dict) : M nat :=
  let! be := lift (bind_sig "count" [] ["session"] [] args kw) in
  let (_, kwargs) := be in
  let! filters := lift (parse_kwargs cls kwargs) in
  let! w := get_world in
  ret (List.length (filter (row_matches filters) (table w))).

Definition count (cls : crud) := with_session cls "count" (count_body cls).

(** [schema_to_select( **out)] *)
Definition construct (schema : pyval) (out : dict) : result pyval :=
  match schema with
  | PType name fields =>
      match instantiate E name fields out with
      | inl msg => Raise (ValidationError msg)
      | inr v => Ok v
      end
  | v => Raise (not_callable v)
  end.

(** [_as_single_response] on the rows of an executed statement (and the
    same tail in [get]): [one_or_none()] or [first()], then the dict or
    the schema instance. *)
Definition single_response (rows : list dict) (schema_to_select : pyval)
  (return_as_model one_or_none : bool) : result pyval :=
  let* first :=
    if one_or_none && (1 <? List.length rows)%nat
    then Raise (StorageError "Multiple rows were found when one or none was required")
    else Ok (hd_error rows) in
  match first with
  | None => Ok PNone
  | Some out =>
      if negb return_as_model then Ok (PDict out)
      else if negb (truthy schema_to_select)
      then Raise (ValueError "schema_to_select must be provided when return_as_model is True.")
      else construct schema_to_select out
  end.

(** [_as_multi_response] (and the same tail in [get_multi]) on a response
    whose [data] are [rows]. *)
Definition multi_response (response : dict) (rows : list dict) (schema_to_select : pyval)
  (return_as_model : bool) : result pyval :=
  if negb return_as_model then Ok (PDict response)
  else if negb (truthy schema_to_select)
  then Raise (ValueError "schema_to_select must be provided when return_as_model is True.")
  else
    let fix build (rows : list dict) : result (list pyval) :=
      match rows with
      | [] => Ok []
      | row :: rest =>
          let* v := match schema_to_select with
                    | PType name fields =>
                        match instantiate E name fields row with
                        | inl msg => Raise (ValueError ("Data validation error for schema "
                                                        ++ name ++ ": " ++ msg))
                        | inr v => Ok v
                        end
                    | v => Raise (not_callable v)
                    end in
          let* vs := build rest in
          Ok (v :: vs)
      end in
    let* model_data := build rows in
    Ok (PDict (dict_set response "data" (PList model_data))).

Definition get_body (cls : crud) (args : list pyval) (kw : dict) : M pyval :=
  let! be := lift (bind_sig "get" []
                    ["schema_to_select"; "return_as_model"; "one_or_none"; "session"]
                    [] args kw) in
  let (bound, kwargs) := be in
  let schema_to_select := param bound "schema_to_select" PNone in
  let! stmt := lift (select cls [] (("schema_to_select", schema_to_select) :: kwargs)) in
  let! w := get_world in
  lift (single_response (execute_select stmt (table w)) schema_to_select
          (truthy (param bound "return_as_model" (PBool false)))
          (truthy (param bound "one_or_none" (PBool false)))).

Definition get (cls : crud) := with_session cls "get" (get_body cls).

(** The first key of [later] already in [earlier]: the duplicate a call
    [f( **earlier, **later)] refuses. *)
Definition first_duplicate (earlier later : dict) : option string :=
  match find (fun kv => dict_mem earlier (fst kv)) later with
  | Some (k, _) => Some k
  | None => None
  end.

(** [cls.__model__( **object_dict, **kwargs)] with SQLAlchemy's declarative
    constructor, then [session.add]: the stored row holds each column's
    given value, a primary key given as [None] or a column not given
    getting what the storage inserts. *)
Definition create_body (cls : crud) (args : list pyval) (kw : dict) : M pyval :=
  let! be := lift (bind_sig "create" [] ["obj"; "commit"; "session"] ["obj"] args kw) in
  let (bound, kwargs) := be in
  let! object_dict := lift (model_dump_of (param bound "obj" PNone)) in
  let m := __model__ cls in
  match first_duplicate object_dict kwargs with
  | Some k =>
      throw (TypeError (model_module m ++ "." ++ model_name m
                        ++ "() got multiple values for keyword argument '" ++ k ++ "'"))
  | None =>
      let init := object_dict ++ kwargs in
      match find (fun kv => negb (mem_str (fst kv) (model_attrs m))) init with
      | Some (k, _) =>
          throw (TypeError ("'" ++ k ++ "' is an invalid keyword argument for " ++ model_name m))
      | None =>
          let! w := get_world in
          let row :=
            map (fun c => (c, match dict_get init c with
                              | Some PNone => if mem_str c (primary_keys m)
                                              then column_default E m c (table w) else PNone
                              | Some v => v
                              | None => column_default E m c (table w)
                              end)) (model_columns m) in
          let! _ := match insert_error E m row (table w) with
                    | Some e => throw e
                    | None => ret tt
                    end in
          let! _ := set_table (table w ++ [row]) in
          let! _ := if truthy (param bound "commit" (PBool true))
                    then session_commit (param bound "session" PNone) else ret tt in
          ret (PObj (model_name m) row)
      end
  end.

Definition create (cls : crud) := with_session cls "create" (create_body cls).

Definition update_body (cls : crud) (args : list pyval) (kw : dict) : M pyval :=
  let! be := lift (bind_sig "update" []
                    ["obj"; "allow_multiple"; "commit"; "return_columns";
                     "schema_to_select"; "return_as_model"; "one_or_none"; "session"]
                    ["obj"] args kw) in
  let (bound, kwargs) := be in
  let m := __model__ cls in
  let allow_multiple := truthy (param bound "allow_multiple" (PBool false)) in
  let! _ :=
    if allow_multiple then ret tt
    else let! total_count := count cls [] kwargs in
         if (1 <? total_count)%nat
         then throw (ValueError ("Expected exactly one record to update, found "
                                 ++ nat_str total_count ++ "."))
         else ret tt in
  let obj := param bound "obj" PNone in
  let! update_data :=
    match obj with
    | PDict d => ret d
    | _ => lift (model_dump_of obj)
    end in
  let! w := get_world in
  let update_data :=
    match getattr m (updated_at_column cls) with
    | Some _ => dict_set update_data (updated_at_column cls) (clock w)
    | None => update_data
    end in
  match filter (fun k => negb (mem_str k (model_columns m))) (map fst update_data) with
  | (_ :: _) as extra_fields =>
      throw (ValueError ("Extra fields provided: "
                         ++ py_repr (PSet (map PStr (set_order E extra_fields)))))
  | [] =>
    let! filters := lift (parse_kwargs cls kwargs) in
    let return_as_model := truthy (param bound "return_as_model" (PBool false)) in
    let return_columns :=
      if return_as_model then PList (map PStr (model_columns m))
      else param bound "return_columns" PNone in
    if truthy return_columns then
      let! names := lift (py_iter return_columns) in
      let cols := map py_str names in
      match find (fun c => negb (mem_str c (model_columns m))) cols with
      | Some c => throw (unknown_column E c)
      | None =>
          let! w0 := get_world in
          let! _ := exec_update m filters update_data in
          (* [UPDATE ... RETURNING]: the updated rows, as they are now *)
          let returned :=
            map (fun r => map (fun c => (c, param r c PNone)) cols)
                (map (fun r => fold_left (fun r kv => dict_set r (fst kv) (snd kv)) update_data r)
                     (filter (row_matches filters) (table w0))) in
          let schema_to_select := param bound "schema_to_select" PNone in
          if allow_multiple
          then lift (multi_response [("data", PList (map PDict returned))] returned
                                    schema_to_select return_as_model)
          else lift (single_response returned schema_to_select return_as_model
                                     (truthy (param bound "one_or_none" (PBool false))))
      end
    else
      let! _ := exec_update m filters update_data in
      let! _ := if truthy (param bound "commit" (PBool true))
                then session_commit (param bound "session" PNone) else ret tt in
      ret PNone
  end.

Definition update (cls : crud) := with_session cls "update" (update_body cls).

(** Rows sharing the primary key values of [r] (the identity of an ORM row). *)
Definition same_identity (m : model) (r r' : dict) : bool :=
  forallb (fun k => pyval_eqb (param r k PNone) (param r' k PNone)) (primary_keys m).

(** [session.delete(v)] on a value that is not an ORM instance. *)
Definition unmapped (v : pyval) : exn :=
  StorageError ("Class '" ++ (match v with
                              | PType _ _ => "pydantic._internal._model_construction.ModelMetaclass"
                              | _ => "builtins." ++ py_type_name v
                              end) ++ "' is not mapped").

Definition delete_body (cls : crud) (args : list pyval) (kw : dict) : M unit :=
  let! be := lift (bind_sig "delete" ["db_row"; "allow_multiple"; "commit"; "session"]
                    [] [] args kw) in
  let (bound, kwargs) := be in
  let m := __model__ cls in
  let commit := truthy (param bound "commit" (PBool true)) in
  let session := param bound "session" PNone in
  let! filters := lift (parse_kwargs cls kwargs) in
  let db_row := param bound "db_row" PNone in
  if truthy db_row then
    match db_row with
    | PObj _ attrs =>
        let! w := get_world in
        if dict_mem attrs (is_deleted_column cls) && dict_mem attrs (deleted_at_column cls)
        then
          let! _ := set_table (map (fun r =>
                      if same_identity m attrs r
                      then dict_set (dict_set r (is_deleted_column cls) (PBool true))
                                    (deleted_at_column cls) (clock w)
                      else r) (table w)) in
          let! _ := if commit then session_commit session else ret tt in
          if commit then session_commit session else ret tt
        else
          let! _ := set_table (filter (fun r => negb (same_identity m attrs r)) (table w)) in
          if commit then session_commit session else ret tt
    | v => throw (unmapped v)
    end
  else
    let! total_count := count cls [] kwargs in
    if (total_count =? 0)%nat then throw (ValueError "No record found to delete.")
    else if negb (truthy (param bound "allow_multiple" (PBool false))) && (1 <? total_count)%nat
    then throw (ValueError ("Expected exactly one record to delete, found "
                            ++ nat_str total_count ++ "."))
    else
      let! _ :=
        if mem_str (is_deleted_column cls) (model_columns m) then
          let! w := get_world in
          exec_update m filters [("is_deleted", PBool true); ("deleted_at", clock w)]
        else
          let! w := get_world in
          set_table (filter (fun r => negb (row_matches filters r)) (table w)) in
      if commit then session_commit session else ret tt.

Definition delete (cls : crud) := with_session cls "delete" (delete_body cls).





Definition get_multi_body (cls : crud) (args : list pyval) (kw : dict) : M pyval :=
  let! be := lift (bind_sig "get_multi" []
                    ["offset"; "limit"; "schema_to_select"; "sort_columns"; "sort_orders";
                     "return_as_model"; "return_total_count"; "session"] [] args kw) in
  let (bound, kwargs) := be in
  let offset := param bound "offset" (PInt 0) in
  let limit := param bound "limit" (PInt 100) in
  let schema_to_select := param bound "schema_to_select" PNone in
  let! negative := lift (let* l := match limit with PNone => Ok false | _ => lt_zero limit end in
                         if l then Ok true else lt_zero offset) in
  if negative then throw (ValueError "Limit and offset must be non-negative.")
  else
    let! stmt := lift (select cls [] ([("schema_to_select", schema_to_select);
                                       ("sort_columns", param bound "sort_columns" PNone);
                                       ("sort_orders", param bound "sort_orders" PNone)]
                                      ++ kwargs)) in
    let stmt := if truthy offset
                then match as_int offset with
                     | Some z => with_offset stmt (Z.to_nat z)
                     | None => stmt
                     end
                else stmt in
    let stmt := match limit with
                | PNone => stmt
                | _ => match as_int limit with
                       | Some z => with_limit stmt (Z.to_nat z)
                       | None => stmt
                       end
                end in
    let! w := get_world in
    let data := execute_select stmt (table w) in
    let response := [("data", PList (map PDict data))] in
    let! response :=
      if truthy (param bound "return_total_count" (PBool true)) then
        let! total_count := count cls [] kwargs in
        ret (dict_set response "total_count" (PInt (Z.of_nat total_count)))
      else ret response in
    lift (multi_response response data schema_to_select
            (truthy (param bound "return_as_model" (PBool false)))).

Definition get_multi (cls : crud) := with_session cls "get_multi" (get_multi_body cls).

(** ** [upsert] *)

(** Names bound at module level in [app/crud/__init__.py]. *)
Definition crud_module_globals : list string :=
  ["datetime"; "timezone"; "wraps"; "Any"; "Optional"; "Callable"; "Union"; "Dict";
   "Sequence"; "Type"; "logger"; "BaseModel"; "ValidationError"; "Insert"; "Result";
   "and_"; "select"; "update"; "delete"; "func"; "inspect"; "asc"; "desc"; "or_";
   "column"; "Column"; "Select"; "Row"; "Join"; "AsyncSession"; "Session";
   "AliasedClass"; "BinaryExpression"; "ColumnElement"; "JoinConfig"; "ModelType";
   "CreateSchemaType"; "UpdateSchemaType"; "DBError"; "async_session_maker";
   "with_session"; "_extract_matching_columns_from_schema"; "_get_primary_key";
   "_get_primary_keys"; "_handle_one_to_many"; "_handle_one_to_one";
   "_nest_join_data"; "BaseCRUD"].

(** Python builtins (none is called [db]). *)
Definition python_builtins : list string :=
  ["abs"; "all"; "any"; "bool"; "dict"; "dir"; "getattr"; "hasattr"; "int"; "isinstance";
   "len"; "list"; "print"; "set"; "setattr"; "str"; "super"; "tuple"; "type"].

(** Name lookup of a free name inside [upsert]: locals, module, builtins. *)
Definition resolve_name (locals : list string) (n : string) : result unit :=
  if mem_str n (locals ++ crud_module_globals ++ python_builtins) then Ok tt
  else Raise (NameError n).

Definition upsert_locals : list string :=
  ["cls"; "instance"; "schema_to_select"; "return_as_model"; "_pks"; "db_instance"].

(** [_get_pk_dict(instance)] *)
Definition _get_pk_dict (cls : crud) (instance : pyval) : result dict :=
  let fix go (pks : list string) : result dict :=
    match pks with
    | [] => Ok []
    | pk :: rest =>
        let* v := match instance with
                  | PObj _ attrs =>
                      match dict_get attrs pk with
                      | Some v => Ok v
                      | None => Raise (no_attribute instance pk)
                      end
                  | _ => Raise (no_attribute instance pk)
                  end in
        let* d := go rest in
        Ok ((pk, v) :: d)
    end in
  go (primary_keys (__model__ cls)).

(** [type(instance)] *)
Definition type_of (v : pyval) : pyval :=
  match v with
  | PObj c attrs => PType c (map fst attrs)
  | PType _ _ => PType "type" []
  | _ => PType "object" []
  end.

(** [schema.model_validate(obj, from_attributes=True)] *)
Definition model_validate (schema obj : pyval) : result pyval :=
  match schema, obj with
  | PType name fields, PObj _ attrs =>
      if forallb (dict_mem attrs) fields
      then Ok (PObj name (map (fun f => (f, param attrs f PNone)) fields))
      else Raise (ValueError "validation error")
  | _, _ => Raise (ValueError "validation error")
  end.

(** [BaseCRUD.upsert(instance=..., schema_to_select=..., return_as_model=...)]
    (not wrapped by [with_session]). *)
Definition upsert (cls : crud) (instance schema_to_select return_as_model : pyval) : M pyval :=
  let! _pks := lift (_get_pk_dict cls instance) in
  let schema_to_select :=
    if truthy schema_to_select then schema_to_select else type_of instance in
  let! db_instance := get cls [] ([("schema_to_select", schema_to_select);
                                   ("return_as_model", return_as_model)] ++ _pks) in
  match db_instance with
  | PNone =>
      let! created := create cls [instance] [] in
      lift (model_validate schema_to_select created)
  | _ =>
      let! _ := lift (resolve_name upsert_locals "db") in
      let! _ := update cls [PNone; instance] [] in
      get cls [] ([("schema_to_select", schema_to_select);
                   ("return_as_model", return_as_model)] ++ _pks)
  end.

End Storage.

(** ** [ProjectService] of [app/service/project/project.py] *)

(** [request.user]: its [id] and its [role]. *)
Record current_user : Type := CurrentUser {
  user_id : pyval;
  user_role : Z
}.

(** What a service call raises: an exception of the engine, or
    [CustomException(CustomErrorCode.<code>)]. *)
Inductive svc_error : Type :=
| Raised (e : exn)
| CustomException (code : string).

Inductive svc_result (A : Type) : Type :=
| SvcOk (a : A)
| SvcErr (e : svc_error).
Arguments SvcOk {A} a.
Arguments SvcErr {A} e.

(** [obj.name] *)
Definition attr (obj : pyval) (n : string) : result pyval :=
  match obj with
  | PObj _ attrs =>
      match dict_get attrs n with
      | Some v => Ok v
      | None => Raise (no_attribute obj n)
      end
  | _ => Raise (no_attribute obj n)
  end.

(** [v[k]] on the dict [get] returns *)
Definition subscript (v : pyval) (k : string) : result pyval :=
  match v with
  | PDict d => match dict_get d k with Some x => Ok x | None => Raise (KeyError k) end
  | _ => Raise (TypeError ("'" ++ py_type_name v ++ "' object is not subscriptable"))
  end.

(** [obj.model_dump()] *)
Definition model_dump (obj : pyval) : result dict := model_dump_of obj.

Section Service.

Variable E : env.
(** [settings.ADMIN] *)
Variable ADMIN : Z.
(** [ProjectCRUD]: the engine bound to the project model. *)
Variable ProjectCRUD : crud.

(** [ProjectService.update_project(request, obj)] *)
Definition update_project (user : current_user) (obj : pyval) (w : world)
  : svc_result unit * world :=
  match attr obj "id" with
  | Raise e => (SvcErr (Raised e), w)
  | Ok id =>
      let (r, w1) := get E ProjectCRUD [] [("id", id)] w in
      match r with
      | Raise e => (SvcErr (Raised e), w1)
      | Ok input_id =>
          if negb (truthy input_id) then (SvcErr (CustomException "PROJECT_ID_EXIST"), w1)
          else
            match subscript input_id "owner" with
            | Raise e => (SvcErr (Raised e), w1)
            | Ok owner =>
                if negb (pyval_eqb owner (user_id user)) && (user_role user <? ADMIN)%Z
                then (SvcErr (CustomException "PROJECT_No_PERMISSION"), w1)
                else
                  match model_dump obj with
                  | Raise e => (SvcErr (Raised e), w1)
                  | Ok d =>
                      let (r2, w2) :=
                        update E ProjectCRUD []
                          [("obj", PDict (dict_set d "updated_by" (user_id user)))] w1 in
                      match r2 with
                      | Ok _ => (SvcOk tt, w2)
                      | Raise e => (SvcErr (Raised e), w2)
                      end
                  end
            end
      end
  end.

(** [ProjectService.is_del_project(request, project_id)] *)
Definition is_del_project (user : current_user) (project_id : pyval) (w : world)
  : svc_result unit * world :=
  let (r, w1) := get E ProjectCRUD [] [("id", project_id)] w in
  match r with
  | Raise e => (SvcErr (Raised e), w1)
  | Ok input_id =>
      if negb (truthy input_id) then (SvcErr (CustomException "PROJECT_ID_EXIST"), w1)
      else
        match subscript input_id "owner" with
        | Raise e => (SvcErr (Raised e), w1)
        | Ok owner =>
            if negb (pyval_eqb owner (user_id user)) && negb (Z.eqb (user_role user) ADMIN)
            then (SvcErr (CustomException "PROJECT_No_PERMISSION"), w1)
            else
              let (r2, w2) := delete E ProjectCRUD [] [("id", project_id)] w1 in
              match r2 with
              | Ok _ => (SvcOk tt, w2)
              | Raise e => (SvcErr (Raised e), w2)
              end
        end
  end.

End Service.

(** ** [JwtAuthMiddleware.authenticate] of [app/middlewares/jwt_auth_middleware.py] *)

(** [str.lower()] on the ASCII letters (the only ones [bearer] holds). *)
Definition lower_ascii (c : ascii) : ascii :=
  let n := nat_of_ascii c in
  if (65 <=? n)%nat && (n <=? 90)%nat then ascii_of_nat (n + 32) else c.

Fixpoint lower (s : string) : string :=
  match s with
  | EmptyString => EmptyString
  | String c s' => String (lower_ascii c) (lower s')
  end.

(** [request.headers.get(key)]: ASGI header names arrive lowercased and the
    key is lowercased before the lookup. *)
Definition headers_get (headers : list (string * string)) (key : string) : option string :=
  match find (fun kv => String.eqb (fst kv) (lower key)) headers with
  | Some (_, v) => Some v
  | None => None
  end.

(** [s.partition(" ")] *)
Fixpoint partition_space (s : string) : string * string :=
  match s with
  | EmptyString => (EmptyString, EmptyString)
  | String c s' =>
      if Ascii.eqb c " "%char then (EmptyString, s')
      else let (a, b) := partition_space s' in (String c a, b)
  end.

(** [fastapi.security.utils.get_authorization_scheme_param] *)
Definition get_authorization_scheme_param (authorization_header_value : string)
  : string * string :=
  if String.eqb authorization_header_value "" then ("", "")
  else partition_space authorization_header_value.

(** What the token checks raise: [TokenError(message)], or another
    exception with possibly a [code] and a [message] attribute. *)
Inductive auth_exn : Type :=
| TokenError (message : string)
| OtherError (code : option Z) (message : option string).

(** [_AuthenticationError(code=..., message=..., headers=...)] *)
Record auth_error : Type := AuthenticationError {
  auth_code : option Z;
  auth_message : option string;
  auth_headers : option (list (string * string))
}.

Section Auth.

(** [Jwt.decode_jwt_token], [Jwt.get_current_user] and
    [CurrentUserIns.model_validate]: each returns its value or raises. *)
Variable decode_jwt_token : string -> auth_exn + pyval.
Variable get_current_user : pyval -> auth_exn + pyval.
Variable model_validate_user : pyval -> auth_exn + pyval.

(** [None] is the bare [return]: the request stays unauthenticated. *)
Definition authenticate (headers : list (string * string))
  : auth_error + option (list string * pyval) :=
  match headers_get headers "Authorization" with
  | None => inr None
  | Some token =>
      if String.eqb token "" then inr None
      else
        let (scheme, token) := get_authorization_scheme_param token in
        if negb (String.eqb (lower scheme) "bearer") then inr None
        else
          let attempt :=
            match decode_jwt_token token with
            | inl e => inl e
            | inr sub =>
                match get_current_user sub with
                | inl e => inl e
                | inr current_user => model_validate_user current_user
                end
            end in
          match attempt with
          | inl (TokenError message) =>
              inl (AuthenticationError None (Some message) (Some [("WWW-Authenticate", "Bearer")]))
          | inl (OtherError code message) =>
              inl (AuthenticationError
                     (Some (match code with Some c => c | None => 500%Z end))
                     (Some (match message with Some m => m | None => "Internal Server Error" end))
                     None)
          | inr user => inr (Some (["authenticated"], user))
          end
  end.

End Auth.

(** ** Fixtures *)

(** The plain class attributes every declarative model has, with their
    [repr]s. *)
Definition plain_dm : list (string * string) :=
  [("metadata", "MetaData()");
   ("registry", "<sqlalchemy.orm.decl_api.registry object at 0x7f2c1b2e3d90>")].

(** A declarative model class: besides its columns it exposes the class
    attributes [metadata] and [registry] every declarative model has. *)
Definition project_model : model :=
  Model "Project" "project" ["id"; "name"; "metadata"; "registry"] ["id"; "name"] ["id"]
        "app.models.project" plain_dm [].

(** A parent row outer-joined to no test case. *)
Definition orphan_row : dict :=
  [("id", PInt 1); ("name", PStr "p"); ("joined__cases_id", PNone); ("joined__cases_title", PNone)].

(** The test cases of a project, joined one-to-many under [cases]. *)
Definition case_model : model :=
  Model "TestCase" "testcase" ["id"; "title"; "project_id"; "metadata"; "registry"]
        ["id"; "title"; "project_id"] ["id"] "app.models.testcase" plain_dm [].

Definition cases_join : join_config := JoinConfig case_model "cases_" "one-to-many".


(** The joined columns of a child as the query labels them. *)
Definition prefixed (j : join_config) (c : dict) : dict :=
  map (fun kv : string * pyval => ((full_prefix j ++ fst kv)%string, snd kv)) c.

(** An entity with the soft-delete columns, one without them, and one
    with the flag column only. *)
Definition task_model : model :=
  Model "Task" "task" ["id"; "name"; "is_deleted"; "deleted_at"; "metadata"; "registry"]
        ["id"; "name"; "is_deleted"; "deleted_at"] ["id"] "app.models.task" plain_dm [].

Definition flagged_model : model :=
  Model "Flagged" "flagged" ["id"; "name"; "is_deleted"; "metadata"; "registry"]
        ["id"; "name"; "is_deleted"] ["id"] "app.models.flagged" plain_dm [].

Definition task_rows : list dict :=
  [[("id", PInt 1); ("name", PStr "a"); ("is_deleted", PBool false); ("deleted_at", PNone)];
   [("id", PInt 2); ("name", PStr "a"); ("is_deleted", PBool false); ("deleted_at", PNone)];
   [("id", PInt 3); ("name", PStr "b"); ("is_deleted", PBool false); ("deleted_at", PNone)]].

Definition empty_world : world := World [] [] [] 0 (PInt 0).

(** A storage that evaluates equality predicates on the row and nothing
    else, enough for the concrete runs below. *)
Definition eq_holds (p : pred) (r : dict) : bool :=
  match p with
  | PEq a v => match dict_get r a with Some v' => pyval_eqb v v' | None => false end
  | _ => false
  end.

(** A storage evaluating equality predicates only, keeping rows in their
    stored order, storing [None] in unset columns and refusing no row, with
    sets iterated in insertion order and a pydantic constructor that keeps
    the schema's fields of the row. *)
Definition eq_env : env :=
  Env eq_holds (fun _ rows => rows) (fun _ _ => Ok []) (fun _ _ _ => PNone)
      (fun _ _ _ => None) (fun c => StorageError ("no such column: " ++ c)) (fun l => l)
      (fun name fields row => inr (PObj name (map (fun f => (f, param row f PNone)) fields))).



Definition get_multi_keywords : list string :=
  ["offset"; "limit"; "schema_to_select"; "sort_columns"; "sort_orders";
   "return_as_model"; "return_total_count"; "session"].



(** [asc(c)] for the order ["asc"], [desc(c)] for any other. *)
Definition clause_of (o c : string) : order_clause :=
  if String.eqb o "asc" then Asc c else Desc c.

(** A project entity with its owner, two projects of different owners, and
    the plain statement over the task entity. *)
Definition owned_model : model :=
  Model "Project" "project" ["id"; "name"; "owner"; "metadata"; "registry"] ["id"; "name"; "owner"] ["id"]
        "app.models.project" plain_dm [].
Definition owned_rows : list dict :=
  [[("id", PInt 1); ("name", PStr "p"); ("owner", PInt 7)];
   [("id", PInt 2); ("name", PStr "q"); ("owner", PInt 8)]].
Definition task_stmt : select_stmt :=
  SelectStmt task_model (model_columns task_model) [] [] None None.

(** ** Lemmas on the result monad and dicts *)

Lemma bind_ok_r {A} (r : result A) : bind r (fun x => Ok x) = r.
Proof. destruct r; reflexivity. Qed.

Lemma bind_nil_app {A} (r : result (list A)) : bind r (fun qs => Ok ([] ++ qs)) = r.
Proof. destruct r; reflexivity. Qed.

Lemma multi_valued_supported (op : string) :
  multi_valued op = true -> existsb (String.eqb op) _SUPPORTED_FILTERS = true.
Proof.
  unfold multi_valued; simpl; intros E.
  repeat (apply Bool.orb_true_iff in E; destruct E as [E|E]);
    try (apply String.eqb_eq in E; subst; reflexivity); discriminate.
Qed.


(** ** C2: unsupported operator suffixes *)

(** C2 (amended). For a [field__op] key whose operator is neither [or] nor
    in [_SUPPORTED_FILTERS]: if [field] is not an attribute of the model,
    compilation raises [ValueError("Invalid filter column: ...")]; if it is,
    the key contributes no predicate and raises nothing (the rest of the
    keywords compile as if it were absent). *)
Theorem parse_filters_unsupported_operator (m : model) (key field op : string)
  (value : pyval) (rest : dict) :
  str_contains "__" key = true -> rsplit_sep key = (field, op) -> op <> "or" ->
  existsb (String.eqb op) _SUPPORTED_FILTERS = false ->
  (getattr m field = None ->
   _parse_filters m ((key, value) :: rest) = Raise (ValueError ("Invalid filter column: " ++ field)))
  /\ (getattr m field <> None ->
      _parse_filters m ((key, value) :: rest) = _parse_filters m rest).
Proof.
  intros Hc Hs Hor Hsup; simpl; unfold parse_one; rewrite Hc, Hs.
  split; intros Hg.
  - rewrite Hg; reflexivity.
  - destruct (getattr m field) as [col|]; [|congruence].
    destruct (String.eqb_spec op "or"); [congruence|].
    unfold _get_sqlalchemy_filter.
    destruct (multi_valued op) eqn:Emv.
    + rewrite (multi_valued_supported op Emv) in Hsup; discriminate.
    + rewrite Hsup; apply bind_nil_app.
Qed.

Lemma parse_filters_unsupported_operator_witness :
  str_contains "__" "name__foo" = true /\ rsplit_sep "name__foo" = ("name", "foo")
  /\ "foo" <> "or" /\ existsb (String.eqb "foo") _SUPPORTED_FILTERS = false
  /\ getattr project_model "name" <> None
  /\ _parse_filters project_model [("name__foo", PStr "x"); ("id__gt", PInt 1)]
     = _parse_filters project_model [("id__gt", PInt 1)].
Proof.
  assert (Hne : "foo" <> "or") by discriminate.
  assert (Hg : getattr project_model "name" <> None) by discriminate.
  refine (conj eq_refl (conj eq_refl (conj Hne (conj eq_refl (conj Hg _))))).
  exact (proj2 (parse_filters_unsupported_operator project_model "name__foo" "name" "foo"
                  (PStr "x") [("id__gt", PInt 1)] eq_refl eq_refl Hne eq_refl) Hg).
Defined.

(** C2 counterexample: [name__foo] on a model with a [name] column compiles
    to no predicate and raises nothing. *)
Lemma parse_filters_unsupported_operator_no_error :
  _parse_filters project_model [("name__foo", PStr "x")] = Ok [].
Proof. reflexivity. Qed.

(** ** C3: OR groups *)



(** The same entry outside an OR group compiles: the plain path checks the
    entry's own value. *)
Lemma parse_filters_in_list_compiles :
  _parse_filters project_model [("id__in", PList [PInt 1; PInt 2])]
  = Ok [PApp "in" "id" (PList [PInt 1; PInt 2])].
Proof. reflexivity. Qed.


(** ** C9: bare filter keywords *)




(** ** Dict lemmas *)

Lemma dict_get_set_eq (d : dict) (k : string) (v : pyval) :
  dict_get (dict_set d k v) k = Some v.
Proof.
  induction d as [|[k' v'] d IH]; simpl.
  - rewrite String.eqb_refl; reflexivity.
  - destruct (String.eqb_spec k k'); simpl.
    + subst; rewrite String.eqb_refl; reflexivity.
    + apply String.eqb_neq in n; rewrite n; exact IH.
Qed.

Lemma dict_get_set_neq (d : dict) (k k' : string) (v : pyval) :
  k <> k' -> dict_get (dict_set d k v) k' = dict_get d k'.
Proof.
  intros Hne; induction d as [|[k0 v0] d IH]; simpl.
  - apply String.eqb_neq in Hne; rewrite String.eqb_sym, Hne; reflexivity.
  - destruct (String.eqb_spec k k0); simpl.
    + subst; apply String.eqb_neq in Hne; rewrite String.eqb_sym, Hne; reflexivity.
    + destruct (String.eqb k' k0); [reflexivity|exact IH].
Qed.

Lemma dict_set_same (d : dict) (k : string) (v : pyval) :
  dict_get d k = Some v -> dict_set d k v = d.
Proof.
  induction d as [|[k0 v0] d IH]; simpl; [discriminate|].
  destruct (String.eqb_spec k k0).
  - intros H; inversion H; subst; reflexivity.
  - intros H; rewrite (IH H); reflexivity.
Qed.

Lemma dict_set_set (d : dict) (k : string) (v v' : pyval) :
  dict_set (dict_set d k v) k v' = dict_set d k v'.
Proof.
  induction d as [|[k0 v0] d IH]; simpl.
  - rewrite String.eqb_refl; reflexivity.
  - destruct (String.eqb_spec k k0); simpl.
    + subst; rewrite String.eqb_refl; reflexivity.
    + apply String.eqb_neq in n; rewrite n, IH; reflexivity.
Qed.

Lemma dict_set_new (d : dict) (k : string) (v : pyval) :
  dict_get d k = None -> dict_set d k v = d ++ [(k, v)].
Proof.
  induction d as [|[k0 v0] d IH]; simpl; [reflexivity|].
  destruct (String.eqb k k0); [discriminate|].
  intros H; rewrite (IH H); reflexivity.
Qed.

Lemma dict_get_none_not_in (d : dict) (k : string) :
  ~ In k (map fst d) -> dict_get d k = None.
Proof.
  induction d as [|[k0 v0] d IH]; simpl; [reflexivity|].
  intros H; destruct (String.eqb_spec k k0); [subst; tauto|].
  apply IH; tauto.
Qed.

(** ** Lemmas on the final collapse loop *)

Lemma collapse_join_frame (nd nd' : dict) (j : join_config) (k : string) :
  nested_key_of j <> k -> collapse_join nd j = Ok nd' -> dict_get nd' k = dict_get nd k.
Proof.
  intros Hne; unfold collapse_join.
  destruct (_get_primary_key (join_model j)) as [pk|e]; simpl; [|discriminate].
  assert (Hstep : forall nd1, (nd1 = nd \/ nd1 = dict_set nd (nested_key_of j) (PList [])) ->
            match dict_get nd1 (nested_key_of j) with
            | Some (PDict o) =>
                match dict_get o pk with
                | Some PNone => Ok (dict_set nd1 (nested_key_of j) PNone)
                | _ => Ok nd1
                end
            | _ => Ok nd1
            end = Ok nd' -> dict_get nd' k = dict_get nd k).
  { intros nd1 Hnd1 H.
    assert (E1 : dict_get nd1 k = dict_get nd k)
      by (destruct Hnd1 as [->| ->]; [reflexivity|apply dict_get_set_neq; exact Hne]).
    destruct (dict_get nd1 (nested_key_of j)) as [[| | | | | | | d| |]|];
      try (inversion H; subst; exact E1).
    destruct (dict_get d pk) as [[| | | | | | | | |]|];
      inversion H; subst; try exact E1.
    rewrite dict_get_set_neq by exact Hne; exact E1. }
  destruct (is_one_to_many j && dict_mem nd (nested_key_of j)); simpl;
    [|apply Hstep; left; reflexivity].
  destruct (dict_get nd (nested_key_of j)) as [[| | | | l| | | | |]|]; simpl;
    try (apply Hstep; left; reflexivity).
  destruct (any_pk_none pk l) as [b|e]; simpl; [|discriminate].
  apply Hstep; destruct b; [right|left]; reflexivity.
Qed.

Lemma collapse_all_app (l1 l2 : list join_config) (nd : dict) :
  collapse_all (l1 ++ l2) nd = bind (collapse_all l1 nd) (collapse_all l2).
Proof.
  revert nd; induction l1 as [|j l1 IH]; intros nd; simpl; [reflexivity|].
  destruct (collapse_join nd j); simpl; [apply IH|reflexivity].
Qed.

Lemma collapse_all_frame (l : list join_config) (nd nd' : dict) (k : string) :
  (forall j, In j l -> nested_key_of j <> k) -> collapse_all l nd = Ok nd' ->
  dict_get nd' k = dict_get nd k.
Proof.
  revert nd; induction l as [|j l IH]; intros nd Hl H; simpl in H.
  - inversion H; reflexivity.
  - destruct (collapse_join nd j) as [nd1|e] eqn:E; simpl in H; [|discriminate].
    rewrite (IH nd1 (fun j' Hj' => Hl j' (or_intror Hj')) H).
    apply (collapse_join_frame nd nd1 j k (Hl j (or_introl eq_refl)) E).
Qed.

Lemma any_pk_none_all_null (pk : string) (items : list pyval) :
  Forall (fun it => exists o, it = PDict o /\ dict_get o pk = Some PNone) items ->
  any_pk_none pk items = Ok (match items with [] => false | _ => true end).
Proof.
  intros H; destruct H as [|it items [o [-> Ho]] _]; simpl; [reflexivity|].
  rewrite Ho; reflexivity.
Qed.

Lemma collapse_join_many_all_null (nd nd' : dict) (j : join_config) (pk : string)
  (items : list pyval) :
  is_one_to_many j = true -> _get_primary_key (join_model j) = Ok pk ->
  dict_get nd (nested_key_of j) = Some (PList items) ->
  Forall (fun it => exists o, it = PDict o /\ dict_get o pk = Some PNone) items ->
  collapse_join nd j = Ok nd' -> dict_get nd' (nested_key_of j) = Some (PList []).
Proof.
  intros Hm Hpk Hget Hall; unfold collapse_join; rewrite Hpk; simpl.
  unfold dict_mem; rewrite Hm, Hget; simpl.
  rewrite (any_pk_none_all_null pk items Hall); simpl.
  destruct items as [|it items].
  - rewrite Hget; intros H; inversion H; subst; exact Hget.
  - rewrite dict_get_set_eq; intros H; inversion H; subst; apply dict_get_set_eq.
Qed.

Lemma collapse_join_dict_null (nd nd' : dict) (j : join_config) (pk : string) (o : dict) :
  _get_primary_key (join_model j) = Ok pk ->
  dict_get nd (nested_key_of j) = Some (PDict o) -> dict_get o pk = Some PNone ->
  collapse_join nd j = Ok nd' -> dict_get nd' (nested_key_of j) = Some PNone.
Proof.
  intros Hpk Hget Ho; unfold collapse_join; rewrite Hpk; simpl.
  unfold dict_mem; rewrite Hget.
  destruct (is_one_to_many j); simpl; rewrite Hget, Ho;
    intros H; inversion H; subst; apply dict_get_set_eq.
Qed.

Lemma nodup_keys_split (pre post : list join_config) (j : join_config) :
  NoDup (map nested_key_of (pre ++ j :: post)) ->
  (forall j', In j' pre -> nested_key_of j' <> nested_key_of j)
  /\ (forall j', In j' post -> nested_key_of j' <> nested_key_of j).
Proof.
  rewrite map_app; simpl; intros H.
  apply NoDup_remove_2 in H; rewrite in_app_iff in H.
  split; intros j' Hj' Heq; apply H; [left|right]; rewrite <- Heq; apply in_map; exact Hj'.
Qed.

(** Splitting the final loop around the join [j]: the joins before and
    after it leave its nested key alone. *)
Lemma collapse_all_around (pre post : list join_config) (j : join_config) (nd out : dict) :
  NoDup (map nested_key_of (pre ++ j :: post)) ->
  collapse_all (pre ++ j :: post) nd = Ok out ->
  exists nd2 nd3, dict_get nd2 (nested_key_of j) = dict_get nd (nested_key_of j)
    /\ collapse_join nd2 j = Ok nd3
    /\ dict_get out (nested_key_of j) = dict_get nd3 (nested_key_of j).
Proof.
  intros Hnd H; destruct (nodup_keys_split pre post j Hnd) as [Hpre Hpost].
  rewrite collapse_all_app in H.
  destruct (collapse_all pre nd) as [nd2|e] eqn:E2; simpl in H; [|discriminate].
  destruct (collapse_join nd2 j) as [nd3|e] eqn:E3; simpl in H; [|discriminate].
  exists nd2, nd3; split; [|split; [exact E3|]].
  - exact (collapse_all_frame pre nd nd2 _ Hpre E2).
  - exact (collapse_all_frame post nd3 out _ Hpost H).
Qed.

(** ** C7: collapsing outer-join misses *)

(** C7. After the columns of a row are placed, a one-to-many nested list
    whose accumulated child objects all have a [None] primary key becomes
    the empty list, and a nested object whose primary key field is [None]
    becomes [None] (join nested keys being distinct, and the call
    returning normally). *)
Theorem nest_join_data_collapses (data : dict) (joins : list join_config)
  (nd nd1 out : dict) (j : join_config) (pk : string) :
  In j joins -> NoDup (map nested_key_of joins) ->
  _get_primary_key (join_model j) = Ok pk ->
  assemble joins nd data = Ok nd1 -> _nest_join_data data joins nd = Ok out ->
  (is_one_to_many j = true -> forall items,
     dict_get nd1 (nested_key_of j) = Some (PList items) ->
     Forall (fun it => exists o, it = PDict o /\ dict_get o pk = Some PNone) items ->
     dict_get out (nested_key_of j) = Some (PList []))
  /\ (forall o, dict_get nd1 (nested_key_of j) = Some (PDict o) ->
      dict_get o pk = Some PNone -> dict_get out (nested_key_of j) = Some PNone).
Proof.
  intros Hin Hnd Hpk Has Hout.
  unfold _nest_join_data in Hout; rewrite Has in Hout; simpl in Hout.
  destruct (in_split j joins Hin) as [pre [post ->]].
  destruct (collapse_all_around pre post j nd1 out Hnd Hout) as [nd2 [nd3 [E2 [E3 Eo]]]].
  rewrite Eo; split.
  - intros Hm items Hget Hall; rewrite <- E2 in Hget.
    exact (collapse_join_many_all_null nd2 nd3 j pk items Hm Hpk Hget Hall E3).
  - intros o Hget Ho; rewrite <- E2 in Hget.
    exact (collapse_join_dict_null nd2 nd3 j pk o Hpk Hget Ho E3).
Qed.

Lemma nest_join_data_collapses_witness :
  _nest_join_data orphan_row [cases_join] []
  = Ok [("id", PInt 1); ("name", PStr "p"); ("cases", PList [])]
  /\ dict_get [("id", PInt 1); ("name", PStr "p"); ("cases", PList [])] "cases"
     = Some (PList []).
Proof.
  split; [reflexivity|].
  refine (proj1 (nest_join_data_collapses orphan_row [cases_join] []
                   [("id", PInt 1); ("name", PStr "p");
                    ("cases", PList [PDict [("id", PNone); ("title", PNone)]])]
                   [("id", PInt 1); ("name", PStr "p"); ("cases", PList [])]
                   cases_join "id" (or_introl eq_refl) _ eq_refl eq_refl eq_refl)
            eq_refl [PDict [("id", PNone); ("title", PNone)]] eq_refl _).
  - constructor; [intros []|constructor].
  - constructor; [eexists; split; reflexivity|constructor].
Defined.

(** ** String lemmas *)

Lemma prefix_app (p s : string) : String.prefix p (p ++ s) = true.
Proof.
  induction p as [|a p IH]; simpl; [destruct s; reflexivity|].
  destruct (ascii_dec a a) as [_|n]; [exact IH|congruence].
Qed.

Lemma prefix_app_inv (a b s : string) :
  String.prefix (a ++ b) s = true -> String.prefix a s = true.
Proof.
  revert s; induction a as [|c a IH]; intros s; simpl; [destruct s; reflexivity|].
  destruct s as [|c' s]; simpl; [discriminate|].
  destruct (ascii_dec c c'); [apply IH|discriminate].
Qed.

Lemma string_length_app (a b : string) :
  String.length (a ++ b) = String.length a + String.length b.
Proof. induction a; simpl; congruence. Qed.

Lemma substring_full (s : string) : substring 0 (String.length s) s = s.
Proof.
  induction s as [|c s IH]; simpl; [reflexivity|].
  rewrite IH; reflexivity.
Qed.

Lemma slice_from_app (a b : string) : slice_from (String.length a) (a ++ b) = b.
Proof.
  unfold slice_from; rewrite string_length_app.
  replace (String.length a + String.length b - String.length a) with (String.length b) by lia.
  induction a as [|c a IH]; simpl.
  - apply substring_full.
  - destruct (String.length b); exact IH.
Qed.

(** ** Assembling one joined row *)

Lemma assemble_app (joins : list join_config) (nd : dict) (a b : dict) :
  assemble joins nd (a ++ b) = bind (assemble joins nd a) (fun nd' => assemble joins nd' b).
Proof.
  revert nd; induction a as [|kv a IH]; intros nd; simpl; [reflexivity|].
  destruct (place_column joins nd kv); simpl; [apply IH|reflexivity].
Qed.

(** Columns that carry no temporary marker stay top-level fields. *)
Lemma assemble_plain (j : join_config) (nd p : dict) :
  Forall (fun kv => startswith (fst kv) temp_prefix = false) p ->
  assemble [j] nd p = Ok (fold_left (fun d kv => dict_set d (fst kv) (snd kv)) p nd).
Proof.
  revert nd; induction p as [|[k v] p IH]; intros nd Hp; simpl; [reflexivity|].
  inversion Hp as [|? ? Hk Hp']; subst; simpl in Hk.
  unfold find_join; simpl.
  assert (Hj : startswith k (full_prefix j) = false).
  { unfold startswith, full_prefix in *; destruct (String.prefix (temp_prefix ++ join_prefix j) k) eqn:E;
      [apply prefix_app_inv in E; congruence|reflexivity]. }
  rewrite Hj, Hk; simpl; apply IH; exact Hp'.
Qed.

Lemma dict_get_app (d r : dict) (k : string) :
  dict_get (d ++ r) k = match dict_get d k with Some v => Some v | None => dict_get r k end.
Proof.
  induction d as [|[k0 v0] d IH]; simpl; [reflexivity|].
  destruct (String.eqb k k0); [reflexivity|exact IH].
Qed.

Lemma fold_set_fresh (p d : dict) :
  NoDup (map fst p) -> (forall k, In k (map fst p) -> dict_get d k = None) ->
  fold_left (fun d kv => dict_set d (fst kv) (snd kv)) p d = d ++ p.
Proof.
  revert d; induction p as [|[k v] p IH]; intros d Hnd Hd; simpl; [symmetry; apply app_nil_r|].
  inversion Hnd as [|? ? Hk Hnd']; subst.
  rewrite (dict_set_new d k v (Hd k (or_introl eq_refl))).
  rewrite IH; [rewrite <- app_assoc; reflexivity|exact Hnd'|].
  intros k' Hk'; rewrite dict_get_app, (Hd k' (or_intror Hk')); simpl.
  destruct (String.eqb_spec k' k); [subst; contradiction|reflexivity].
Qed.

Lemma fold_set_present (p d : dict) :
  (forall kv, In kv p -> dict_get d (fst kv) = Some (snd kv)) ->
  fold_left (fun d kv => dict_set d (fst kv) (snd kv)) p d = d.
Proof.
  revert d; induction p as [|kv p IH]; intros d Hd; simpl; [reflexivity|].
  rewrite (dict_set_same d (fst kv) (snd kv) (Hd kv (or_introl eq_refl))).
  apply IH; intros kv' H; apply Hd; right; exact H.
Qed.

Lemma dict_get_nodup_in (p : dict) (k : string) (v : pyval) :
  NoDup (map fst p) -> In (k, v) p -> dict_get p k = Some v.
Proof.
  induction p as [|[k0 v0] p IH]; simpl; [intros _ []|].
  intros Hnd Hin; inversion Hnd as [|? ? Hk Hnd']; subst.
  destruct Hin as [Heq|Hin].
  - inversion Heq; subst; rewrite String.eqb_refl; reflexivity.
  - destruct (String.eqb_spec k k0); [subst|exact (IH Hnd' Hin)].
    exfalso; apply Hk; change k0 with (fst (k0, v)); apply in_map; exact Hin.
Qed.

Lemma dict_set_app_none (d r : dict) (k : string) (v : pyval) :
  dict_get d k = None -> dict_set (d ++ r) k v = d ++ dict_set r k v.
Proof.
  induction d as [|[k0 v0] d IH]; simpl; [reflexivity|].
  destruct (String.eqb k k0); [discriminate|].
  intros H; rewrite (IH H); reflexivity.
Qed.

Lemma dict_mem_in (d : dict) (k : string) : In k (map fst d) -> dict_mem d k = true.
Proof.
  unfold dict_mem; induction d as [|[k0 v0] d IH]; simpl; [intros []|].
  destruct (String.eqb_spec k k0); [reflexivity|].
  intros [H|H]; [congruence|exact (IH H)].
Qed.

Lemma split_last_snoc {A} (init : list A) (x : A) : split_last (init ++ [x]) = Some (init, x).
Proof.
  unfold split_last; rewrite rev_app_distr; simpl; rewrite rev_involutive; reflexivity.
Qed.

Lemma place_child (j : join_config) (nd : dict) (f : string) (x : pyval) :
  is_one_to_many j = true ->
  place_column [j] nd ((full_prefix j ++ f)%string, x)
  = _handle_one_to_many nd (nested_key_of j) f x.
Proof.
  intros Hm; unfold place_column, find_join; cbn [find]; unfold startswith.
  rewrite prefix_app, slice_from_app, Hm; reflexivity.
Qed.

Lemma assemble_prefixed_cons (j : join_config) (nd : dict) (f : string) (x : pyval) (c : dict) :
  assemble [j] nd (prefixed j ((f, x) :: c))
  = bind (place_column [j] nd ((full_prefix j ++ f)%string, x))
         (fun nd' => assemble [j] nd' (prefixed j c)).
Proof. reflexivity. Qed.

(** Further columns of the same child fill the last list element. *)
Lemma assemble_children_tail (j : join_config) (nd : dict) (init : list pyval) (L c : dict) :
  is_one_to_many j = true ->
  dict_get nd (nested_key_of j) = Some (PList (init ++ [PDict L])) ->
  NoDup (map fst (L ++ c)) ->
  assemble [j] nd (prefixed j c)
  = Ok (dict_set nd (nested_key_of j) (PList (init ++ [PDict (L ++ c)]))).
Proof.
  revert nd L; induction c as [|[f x] c IH]; intros nd L Hm Hget Hnd.
  - rewrite app_nil_r, (dict_set_same _ _ _ Hget); reflexivity.
  - rewrite assemble_prefixed_cons, (place_child j nd f x Hm); unfold _handle_one_to_many; rewrite Hget, split_last_snoc.
    assert (Hf : dict_get L f = None).
    { apply dict_get_none_not_in; rewrite map_app in Hnd; simpl in Hnd.
      apply NoDup_remove_2 in Hnd; rewrite in_app_iff in Hnd; tauto. }
    unfold dict_mem at 1; rewrite Hf, (dict_set_new L f x Hf); simpl.
    rewrite (IH _ (L ++ [(f, x)]) Hm (dict_get_set_eq _ _ _)).
    + rewrite dict_set_set, <- app_assoc; reflexivity.
    + rewrite <- app_assoc; exact Hnd.
Qed.

(** A child row opens a new list element when the list is empty or its
    last element already has the child's first field. *)
Lemma assemble_child_row (j : join_config) (nd : dict) (items : list pyval)
  (f : string) (x : pyval) (c : dict) :
  is_one_to_many j = true ->
  match dict_get nd (nested_key_of j) with Some (PList l) => l | _ => [] end = items ->
  (items = [] \/ exists init L, items = init ++ [PDict L] /\ dict_mem L f = true) ->
  NoDup (map fst ((f, x) :: c)) ->
  assemble [j] nd (prefixed j ((f, x) :: c))
  = Ok (dict_set nd (nested_key_of j) (PList (items ++ [PDict ((f, x) :: c)]))).
Proof.
  intros Hm Hitems Hcase Hnd; rewrite assemble_prefixed_cons, (place_child j nd f x Hm).
  unfold _handle_one_to_many; rewrite Hitems.
  destruct Hcase as [-> | [init [L [-> HL]]]].
  - simpl.
    rewrite (assemble_children_tail j _ [] [(f, x)] c Hm (dict_get_set_eq _ _ _) Hnd).
    rewrite dict_set_set; reflexivity.
  - rewrite split_last_snoc, HL; simpl.
    rewrite (assemble_children_tail j _ (init ++ [PDict L]) [(f, x)] c Hm
               (dict_get_set_eq _ _ _) Hnd).
    rewrite dict_set_set; reflexivity.
Qed.

Lemma any_pk_none_nonnull (pk : string) (items : list pyval) :
  Forall (fun it => exists o v, it = PDict o /\ dict_get o pk = Some v /\ v <> PNone) items ->
  any_pk_none pk items = Ok false.
Proof.
  induction 1 as [|it items [o [v [-> [Ho Hv]]]] _ IH]; simpl; [reflexivity|].
  rewrite Ho; destruct v; congruence.
Qed.

Lemma collapse_single_nonnull (j : join_config) (pk : string) (d : dict) (items : list pyval) :
  is_one_to_many j = true -> _get_primary_key (join_model j) = Ok pk ->
  dict_get d (nested_key_of j) = Some (PList items) ->
  Forall (fun it => exists o v, it = PDict o /\ dict_get o pk = Some v /\ v <> PNone) items ->
  collapse_all [j] d = Ok d.
Proof.
  intros Hm Hpk Hget Hall; simpl; unfold collapse_join; rewrite Hpk; simpl.
  unfold dict_mem; rewrite Hm, Hget; simpl.
  rewrite (any_pk_none_nonnull pk items Hall); simpl; rewrite Hget; reflexivity.
Qed.

(** ** C8: one-to-many accumulation *)

(** C8. A one-to-many column opens a new list element exactly when the last
    element already has that field (otherwise it is set on the last
    element); hence two joined rows of one parent, each carrying one child
    with a non-[None] primary key, fold into the parent's fields plus a
    two-element child list in row order. *)
Theorem nest_rows_one_to_many_groups (j : join_config) (pk : string) (parent c1 c2 : dict) :
  is_one_to_many j = true -> _get_primary_key (join_model j) = Ok pk ->
  NoDup (map fst parent) ->
  Forall (fun kv => startswith (fst kv) temp_prefix = false) parent ->
  ~ In (nested_key_of j) (map fst parent) ->
  c1 <> [] -> NoDup (map fst c1) -> map fst c2 = map fst c1 ->
  (exists v, dict_get c1 pk = Some v /\ v <> PNone) ->
  (exists v, dict_get c2 pk = Some v /\ v <> PNone) ->
  (forall nd k f v init L,
     dict_get nd k = Some (PList (init ++ [PDict L])) ->
     _handle_one_to_many nd k f v
     = Ok (dict_set nd k (PList (if dict_mem L f then init ++ [PDict L; PDict [(f, v)]]
                                 else init ++ [PDict (dict_set L f v)]))))
  /\ nest_rows [j] [] [parent ++ prefixed j c1; parent ++ prefixed j c2]
     = Ok (parent ++ [(nested_key_of j, PList [PDict c1; PDict c2])]).
Proof.
  intros Hm Hpk Hnd Hpar Hk c1ne Hnd1 Hkeys [v1 [Hv1 Hv1n]] [v2 [Hv2 Hv2n]].
  split.
  { intros nd k f v init L Hget; unfold _handle_one_to_many; rewrite Hget, split_last_snoc.
    destruct (dict_mem L f); [rewrite <- app_assoc|]; reflexivity. }
  assert (Hk0 : dict_get parent (nested_key_of j) = None) by (apply dict_get_none_not_in; exact Hk).
  destruct c1 as [|[f x] c1']; [congruence|].
  destruct c2 as [|[f2 y] c2']; [discriminate|].
  simpl in Hkeys; injection Hkeys as Hf Hkeys'; subst f2.
  assert (Hnd2 : NoDup (map fst ((f, y) :: c2'))) by (simpl; rewrite Hkeys'; exact Hnd1).
  assert (Hall : forall l, Forall (fun c => exists v, dict_get c pk = Some v /\ v <> PNone) l ->
            Forall (fun it => exists o v, it = PDict o /\ dict_get o pk = Some v /\ v <> PNone)
                   (map PDict l)).
  { induction 1 as [|c l [v [Hc Hv]] _ IH]; constructor; [exists c, v; auto|exact IH]. }
  cbn [nest_rows]; unfold _nest_join_data.
  (* first row *)
  rewrite assemble_app, (assemble_plain j [] parent Hpar); cbn [bind].
  rewrite (fold_set_fresh parent [] Hnd (fun _ _ => eq_refl)); change ([] ++ parent) with parent.
  rewrite (assemble_child_row j parent [] f x c1' Hm) by (rewrite ?Hk0; auto).
  rewrite (dict_set_new parent _ _ Hk0); cbn [bind].
  assert (Hget1 : forall X, dict_get (parent ++ [(nested_key_of j, X)]) (nested_key_of j) = Some X).
  { intros X; rewrite dict_get_app, Hk0; simpl; rewrite String.eqb_refl; reflexivity. }
  change ([] ++ [PDict ((f, x) :: c1')]) with [PDict ((f, x) :: c1')].
  rewrite (collapse_single_nonnull j pk _ [PDict ((f, x) :: c1')] Hm Hpk (Hget1 _));
    [cbn [bind]|apply (Hall [_]); constructor; [exists v1; auto|constructor]].
  (* second row *)
  rewrite assemble_app, (assemble_plain j _ parent Hpar); cbn [bind].
  rewrite fold_set_present.
  2: { intros [k0 v0] Hin; cbn [fst snd]; rewrite dict_get_app, (dict_get_nodup_in parent k0 v0 Hnd Hin);
       reflexivity. }
  rewrite (assemble_child_row j _ [PDict ((f, x) :: c1')] f y c2' Hm).
  2: { rewrite Hget1; reflexivity. }
  2: { right; exists [], ((f, x) :: c1'); split; [reflexivity|].
       apply dict_mem_in; left; reflexivity. }
  2: exact Hnd2.
  rewrite (dict_set_app_none parent _ _ _ Hk0); cbn [dict_set]; rewrite String.eqb_refl.
  cbn [bind app].
  rewrite (collapse_single_nonnull j pk _ [PDict ((f, x) :: c1'); PDict ((f, y) :: c2')]
             Hm Hpk (Hget1 _)); [reflexivity|].
  apply (Hall [_; _]); repeat constructor; [exists v1|exists v2]; auto.
Qed.

Lemma nest_rows_one_to_many_groups_witness :
  nest_rows [cases_join] []
    [[("id", PInt 1); ("name", PStr "p"); ("joined__cases_id", PInt 10);
      ("joined__cases_title", PStr "a")];
     [("id", PInt 1); ("name", PStr "p"); ("joined__cases_id", PInt 11);
      ("joined__cases_title", PStr "b")]]
  = Ok [("id", PInt 1); ("name", PStr "p");
        ("cases", PList [PDict [("id", PInt 10); ("title", PStr "a")];
                         PDict [("id", PInt 11); ("title", PStr "b")]])].
Proof.
  refine (proj2 (nest_rows_one_to_many_groups cases_join "id"
                   [("id", PInt 1); ("name", PStr "p")]
                   [("id", PInt 10); ("title", PStr "a")]
                   [("id", PInt 11); ("title", PStr "b")]
                   eq_refl eq_refl _ _ _ _ _ eq_refl _ _)).
  - repeat constructor; simpl; intuition discriminate.
  - repeat constructor.
  - simpl; intuition discriminate.
  - discriminate.
  - repeat constructor; simpl; intuition discriminate.
  - exists (PInt 10); split; [reflexivity|discriminate].
  - exists (PInt 11); split; [reflexivity|discriminate].
Defined.

(** ** C4: the transaction wrapper *)

(** C4 (amended). The body runs once: with the caller's session when the
    [session] keyword is truthy (no session opened), otherwise with a fresh
    session [s] stored into [kwargs] after [OpenSession s; Begin s], closed
    with commit or rollback.  A normal result is returned unchanged; an
    exception deriving from [Exception] is logged once with the model
    name, method name, args and kwargs and re-raised as [DBError] carrying
    it; an exception deriving only from [BaseException] (such as
    [CancelledError]) propagates unchanged and unlogged. *)
Theorem with_session_contract {A : Type} (cls : crud) (name : string)
  (body : list pyval -> dict -> M A) (args : list pyval) (kwargs : dict) (w : world) :
  let reuse := match dict_get kwargs "session" with Some s => truthy s | None => false end in
  let s := next_session w in
  let kwargs_in := if reuse then kwargs else dict_set kwargs "session" (session_obj s) in
  let w_in := if reuse then w
              else World (table w) (events w ++ [OpenSession s; Begin s]) (log w) (S s) (clock w) in
  let '(r, w_body) := body args kwargs_in w_in in
  let '(r', w') := with_session cls name body args kwargs w in
  r' = match r with
       | Ok a => Ok a
       | Raise e => Raise (if is_Exception e then DBError name e else e)
       end
  /\ log w' = log w_body ++ match r with
                           | Raise e =>
                               if is_Exception e
                               then [LogError (model_name (__model__ cls)) name args kwargs_in e]
                               else []
                           | Ok _ => []
                           end
  /\ events w' = events w_body ++ (if reuse then []
                                   else match r with
                                        | Ok _ => [Commit s; CloseSession s]
                                        | Raise _ => [Rollback s; CloseSession s]
                                        end)
  /\ table w' = table w_body.
Proof.
  cbv zeta; unfold with_session.
  destruct (match dict_get kwargs "session" with Some s => truthy s | None => false end).
  - destruct (body args kwargs w) as [[a|e] wb]; [auto using app_nil_r|].
    destruct (is_Exception e); simpl; rewrite ?app_nil_r; auto.
  - destruct (body args _ _) as [[a|e] wb]; simpl; [auto using app_nil_r|].
    destruct (is_Exception e); simpl; rewrite ?app_nil_r; auto.
Qed.

(** C4 counterexample: a body cancelled with [CancelledError] (a
    [BaseException]) is not translated into [DBError] nor logged. *)
Lemma with_session_cancelled_not_translated :
  with_session (BaseCRUD_of project_model) "get" (fun _ _ => @throw pyval CancelledError) [] []
    empty_world
  = (Raise CancelledError,
     World [] [OpenSession 0; Begin 0; Rollback 0; CloseSession 0] [] 1 (PInt 0)).
Proof. reflexivity. Qed.

(** ** C1: upsert *)

(** [cls.create(instance)]: [create] takes [obj] by keyword only, so the
    instance is one positional argument too many (the wrapper has already
    added the [session] keyword). *)
Lemma create_positional_raises (E : env) (cls : crud) (instance : pyval) (w : world) :
  fst (create E cls [instance] [] w)
  = Raise (DBError "create" (TypeError "BaseCRUD.create() takes 1 positional argument but 2 positional arguments (and 1 keyword-only argument) were given")).
Proof. reflexivity. Qed.

Lemma resolve_db_unbound : resolve_name upsert_locals "db" = Raise (NameError "db").
Proof. reflexivity. Qed.

(** C1. [upsert] never returns: when no row has the instance's primary key,
    [cls.create(instance)] passes the instance positionally to the
    keyword-only [create] and fails with [DBError]; when a row exists,
    [cls.update(db, instance)] refers to the unbound name [db] and raises
    [NameError]. *)
Theorem upsert_always_raises (E : env) (cls : crud)
  (instance schema_to_select return_as_model : pyval) (w : world) :
  exists e, fst (upsert E cls instance schema_to_select return_as_model w) = Raise e.
Proof.
  unfold upsert, mbind, lift.
  destruct (_get_pk_dict cls instance) as [pks|e]; [|eexists; reflexivity].
  match goal with |- context [get E cls [] ?kw w] => destruct (get E cls [] kw w) as [[v|e] w1] end;
    [|eexists; reflexivity].
  (* a row: [cls.update(db, instance)] *)
  destruct v; try (rewrite resolve_db_unbound; eexists; reflexivity).
  (* no row: [cls.create(instance)] *)
  pose proof (create_positional_raises E cls instance w1) as Hc.
  destruct (create E cls [instance] [] w1) as [[c|e] w2]; simpl in Hc; [discriminate|].
  eexists; reflexivity.
Qed.

(** The two branches on concrete storage: an absent key and a present one. *)
Lemma upsert_branches_fail :
  fst (upsert eq_env (BaseCRUD_of project_model)
         (PObj "ProjectIn" [("id", PInt 2); ("name", PStr "n")]) PNone PNone
         (World [[("id", PInt 1); ("name", PStr "a")]] [] [] 0 (PInt 0)))
  = Raise (DBError "create" (TypeError "BaseCRUD.create() takes 1 positional argument but 2 positional arguments (and 1 keyword-only argument) were given"))
  /\ fst (upsert eq_env (BaseCRUD_of project_model)
            (PObj "ProjectIn" [("id", PInt 1); ("name", PStr "n")]) PNone PNone
            (World [[("id", PInt 1); ("name", PStr "a")]] [] [] 0 (PInt 0)))
     = Raise (NameError "db").
Proof. split; vm_compute; reflexivity. Qed.

(** ** C10: a one-to-many join without its primary key *)





(** ** Calls through the keyword binding *)

Lemma existsb_not_in (k : string) (names : list string) :
  ~ In k names -> existsb (String.eqb k) names = false.
Proof.
  intros H; destruct (existsb (String.eqb k) names) eqn:E; [|reflexivity].
  apply existsb_exists in E; destruct E as [x [Hx Heq]].
  apply String.eqb_eq in Heq; subst; contradiction.
Qed.

Lemma bind_kw_skip (fname : string) (names : list string) (kw rest bound extra : dict) :
  Forall (fun kv => ~ In (fst kv) names) kw ->
  bind_kw fname names (kw ++ rest) bound extra = bind_kw fname names rest bound (extra ++ kw).
Proof.
  revert extra; induction kw as [|[k v] kw IH]; intros extra H; simpl.
  - rewrite app_nil_r; reflexivity.
  - inversion H as [|? ? Hk Hkw]; subst; simpl in Hk.
    rewrite existsb_not_in by exact Hk.
    rewrite IH by exact Hkw; rewrite <- app_assoc; reflexivity.
Qed.

Lemma dict_get_absent (names : list string) (kw : dict) (k : string) :
  Forall (fun kv => ~ In (fst kv) names) kw -> In k names -> dict_get kw k = None.
Proof.
  intros H Hk; apply dict_get_none_not_in; intros Hin.
  apply in_map_iff in Hin; destruct Hin as [kv [Heq Hkv]]; subst.
  rewrite Forall_forall in H; exact (H kv Hkv Hk).
Qed.

Lemma mem_str_true (k : string) (l : list string) : mem_str k l = true <-> In k l.
Proof.
  unfold mem_str; rewrite existsb_exists; split.
  - intros [x [Hx Heq]]; apply String.eqb_eq in Heq; subst; exact Hx.
  - intros H; exists k; split; [exact H|apply String.eqb_refl].
Qed.















Lemma count_run (E : env) (cls : crud) (kwargs : dict) (filters : list pred) (w : world) :
  Forall (fun kv => ~ In (fst kv) ["session"]) kwargs ->
  parse_kwargs E cls kwargs = Ok filters ->
  exists w', count E cls [] kwargs w
             = (Ok (List.length (filter (row_matches E filters) (table w))), w')
    /\ table w' = table w /\ clock w' = clock w.
Proof.
  intros Hk Hp. unfold count, with_session.
  rewrite (dict_get_absent _ _ "session" Hk) by (simpl; auto).
  rewrite dict_set_new by (apply (dict_get_absent _ _ "session" Hk); simpl; auto).
  unfold count_body, mbind, lift, bind_sig; simpl.
  rewrite bind_kw_skip by exact Hk; simpl.
  rewrite Hp; simpl.
  eexists; split; [reflexivity|split; reflexivity].
Qed.









(** An entity with the flag column but no [deleted_at] column: the soft
    delete writes the literal [deleted_at] key and the statement is refused. *)
Lemma delete_flag_only_entity_fails :
  fst (delete eq_env (BaseCRUD_of flagged_model) [] [("name", PStr "b")]
         (World [[("id", PInt 3); ("name", PStr "b"); ("is_deleted", PBool false)]] [] [] 0 (PInt 5)))
  = Raise (DBError "delete" (StorageError "Unconsumed column names: deleted_at")).
Proof. vm_compute; reflexivity. Qed.

(** ** Sorting, queries, deletion, creation, the project service and the
    authentication middleware *)

Lemma sorting_loop_ok (m : model) (stmt : select_stmt) (names orders : list string) :
  List.length names = List.length orders ->
  Forall (fun n => getattr m n = Some n /\ In n (model_columns m)) names ->
  sorting_loop m stmt (map PStr names) (map PStr orders)
  = Ok (SelectStmt (stmt_model stmt) (stmt_columns stmt) (stmt_filters stmt)
          (stmt_order stmt ++ map (fun p => clause_of (fst p) (snd p)) (combine orders names))
          (stmt_offset stmt) (stmt_limit stmt)).
Proof.
  revert stmt orders; induction names as [|n names IH]; intros stmt orders Hl Ha.
  - destruct orders; [|discriminate]; simpl; rewrite app_nil_r; destruct stmt; reflexivity.
  - destruct orders as [|o orders]; [discriminate|]; inversion Ha as [|? ? [Hn Hc] Hrest]; subst.
    simpl; rewrite Hn; simpl; apply mem_str_true in Hc; rewrite Hc.
    rewrite IH by (simpl in Hl; lia || assumption).
    unfold order_by; simpl; rewrite <- app_assoc; reflexivity.
Qed.

Lemma find_valid_orders (orders : list string) :
  Forall (fun o => o = "asc" \/ o = "desc") orders ->
  find (fun o => negb (is_sort_order o)) (map PStr orders) = None.
Proof.
  induction orders as [|o orders IH]; intros H; [reflexivity|].
  inversion H as [|? ? [-> | ->] Hr]; subst; simpl; apply IH; exact Hr.
Qed.

Lemma combine_repeat_clause (o : string) (names : list string) :
  map (fun p => clause_of (fst p) (snd p)) (combine (repeat o (List.length names)) names)
  = map (clause_of o) names.
Proof. induction names as [|n names IH]; simpl; [reflexivity|]; rewrite IH; reflexivity. Qed.

Lemma map_PStr_repeat (o : string) (n : nat) : repeat (PStr o) n = map PStr (repeat o n).
Proof. induction n; simpl; congruence. Qed.

(** [_apply_sorting] with non-empty sort columns that are all columns of the
    model appends one [ORDER BY] clause per column, in order: [asc] for each
    when no order is given, the one given order for each when it is a single
    ["asc"] or ["desc"], and the i-th order for the i-th column when a list of
    valid orders of the same length is given. *)
Theorem apply_sorting_valid (cls : crud) (stmt : select_stmt) (names : list string) :
  names <> [] ->
  Forall (fun n => getattr (__model__ cls) n = Some n /\ In n (model_columns (__model__ cls))) names ->
  let sorted clauses := Ok (SelectStmt (stmt_model stmt) (stmt_columns stmt) (stmt_filters stmt)
                              (stmt_order stmt ++ clauses) (stmt_offset stmt) (stmt_limit stmt)) in
  (forall sort_orders, truthy sort_orders = false ->
     _apply_sorting cls stmt (PList (map PStr names)) sort_orders = sorted (map Asc names))
  /\ (forall o, o = "asc" \/ o = "desc" ->
        _apply_sorting cls stmt (PList (map PStr names)) (PStr o) = sorted (map (clause_of o) names))
  /\ (forall orders, List.length orders = List.length names ->
        Forall (fun o => o = "asc" \/ o = "desc") orders ->
        _apply_sorting cls stmt (PList (map PStr names)) (PList (map PStr orders))
        = sorted (map (fun p => clause_of (fst p) (snd p)) (combine orders names))).
Proof.
  intros Hne Ha sorted.
  assert (Ht : truthy (PList (map PStr names)) = true)
    by (destruct names; [congruence|reflexivity]).
  unfold _apply_sorting; rewrite Ht; split; [|split].
  - intros so Hso; rewrite Hso; simpl.
    rewrite length_map, map_PStr_repeat; cbn [bind]; rewrite sorting_loop_ok by (rewrite ?repeat_length; auto).
    rewrite combine_repeat_clause; reflexivity.
  - intros o Ho.
    assert (Hto : truthy (PStr o) = true) by (destruct Ho as [-> | ->]; reflexivity).
    rewrite Hto; simpl; rewrite length_map, repeat_length, Nat.eqb_refl; simpl.
    rewrite map_PStr_repeat, find_valid_orders by (apply Forall_forall; intros x Hx;
      apply repeat_spec in Hx; subst; exact Ho).
    cbn [bind]; rewrite sorting_loop_ok by (rewrite ?repeat_length; auto).
    rewrite combine_repeat_clause; reflexivity.
  - intros orders Hl Hv.
    assert (Hto : truthy (PList (map PStr orders)) = true)
      by (destruct orders; [destruct names; simpl in Hl; congruence|reflexivity]).
    rewrite Hto; simpl; rewrite !length_map, Hl, Nat.eqb_refl; simpl.
    rewrite find_valid_orders by exact Hv.
    cbn [bind]; rewrite sorting_loop_ok by auto; reflexivity.
Qed.

Lemma apply_sorting_valid_witness :
  _apply_sorting (BaseCRUD_of task_model) task_stmt (PList [PStr "name"; PStr "id"]) (PStr "desc")
  = Ok (SelectStmt task_model (model_columns task_model) [] [Desc "name"; Desc "id"] None None).
Proof.
  exact (proj1 (proj2 (apply_sorting_valid (BaseCRUD_of task_model) task_stmt ["name"; "id"]
           ltac:(discriminate) ltac:(repeat (apply Forall_cons; [split; [reflexivity|apply mem_str_true; reflexivity]|]); apply Forall_nil))) "desc" (or_intror eq_refl)).
Defined.






Lemma bind_kw_all (fname : string) (names : list string) (kw bound extra : dict) :
  Forall (fun kv => ~ In (fst kv) names) kw ->
  bind_kw fname names kw bound extra = Ok (bound, extra ++ kw).
Proof.
  intros H; rewrite <- (app_nil_r kw) at 1; rewrite bind_kw_skip by exact H; reflexivity.
Qed.


(** [select] ignores [sort_orders] when no [sort_columns] is given: the
    guard of [_apply_sorting] against orders without columns is never reached
    from [select]. *)
Theorem select_sort_orders_without_columns (E : env) (cls : crud) (o : pyval) (kwargs : dict) :
  Forall (fun kv => ~ In (fst kv) ["schema_to_select"; "sort_columns"; "sort_orders"]) kwargs ->
  select E cls [] (("sort_orders", o) :: kwargs) = select E cls [] kwargs.
Proof.
  intros Hk; unfold select, bind_sig; simpl.
  rewrite !bind_kw_all by exact Hk; reflexivity.
Qed.

Lemma select_sort_orders_without_columns_witness :
  select eq_env (BaseCRUD_of task_model) [] [("sort_orders", PStr "desc"); ("name", PStr "a")]
  = select eq_env (BaseCRUD_of task_model) [] [("name", PStr "a")].
Proof.
  apply select_sort_orders_without_columns.
  repeat constructor; simpl; intuition discriminate.
Defined.





(** [get_multi] with a negative [limit] or [offset] raises [ValueError],
    re-raised as [DBError], before any query; no row is changed. *)
Theorem get_multi_negative_bounds (E : env) (cls : crud) (l o : Z) (kwargs : dict) (w : world) :
  Forall (fun kv => ~ In (fst kv) get_multi_keywords) kwargs ->
  (l < 0 \/ o < 0)%Z ->
  exists w', get_multi E cls [] (("limit", PInt l) :: ("offset", PInt o) :: kwargs) w
             = (Raise (DBError "get_multi" (ValueError "Limit and offset must be non-negative.")), w')
    /\ table w' = table w.
Proof.
  intros Hk Hlo.
  assert (Hg : dict_get kwargs "session" = None)
    by (apply (dict_get_absent _ _ _ Hk); unfold get_multi_keywords; simpl; tauto).
  unfold get_multi, with_session; simpl dict_get; rewrite Hg.
  simpl dict_set; rewrite dict_set_new by exact Hg.
  unfold get_multi_body at 1, mbind at 1, lift at 1, bind_sig; simpl.
  rewrite (bind_kw_skip _ get_multi_keywords) by exact Hk; simpl.
  unfold lt_zero; simpl.
  destruct (l <? 0)%Z eqn:El; simpl.
  - eexists; split; reflexivity.
  - destruct Hlo as [Hl|Ho]; [apply Z.ltb_lt in Hl; congruence|].
    apply Z.ltb_lt in Ho; rewrite Ho; simpl.
    eexists; split; reflexivity.
Qed.

Lemma get_multi_negative_bounds_witness :
  exists w', get_multi eq_env (BaseCRUD_of task_model) []
               [("limit", PInt (-1)); ("offset", PInt 0)] (World task_rows [] [] 0 (PInt 0))
             = (Raise (DBError "get_multi" (ValueError "Limit and offset must be non-negative.")), w')
    /\ table w' = task_rows.
Proof.
  apply (get_multi_negative_bounds eq_env (BaseCRUD_of task_model)
           (-1) 0 [] (World task_rows [] [] 0 (PInt 0)) (Forall_nil _)); lia.
Defined.














(** A write of a key that is no column: [update] refuses it with the set of
    such keys. *)
Lemma update_extra_field_refused :
  fst (update eq_env (BaseCRUD_of task_model) []
         [("obj", PDict [("nope", PStr "c")]); ("allow_multiple", PBool true); ("name", PStr "a")]
         (World task_rows [] [] 0 (PInt 0)))
  = Raise (DBError "update" (ValueError "Extra fields provided: {'nope'}")).
Proof. vm_compute; reflexivity. Qed.

Lemma filter_row_matches_nil (E : env) (rows : list dict) :
  filter (row_matches E []) rows = rows.
Proof. induction rows as [|r rows IH]; simpl; [reflexivity|]. unfold row_matches at 1; simpl; f_equal; exact IH. Qed.

Lemma update_unfiltered_refused (E : env) (cls : crud) (obj : pyval) (w : world) :
  1 < List.length (table w) ->
  exists w', update E cls [] [("obj", obj)] w
             = (Raise (DBError "update" (ValueError ("Expected exactly one record to update, found "
                                                     ++ nat_str (List.length (table w)) ++ "."))), w')
    /\ table w' = table w.
Proof.
  intros Hn.
  unfold update, with_session; simpl dict_get; cbv iota.
  unfold update_body at 1, mbind at 1, lift at 1, bind_sig; simpl.
  set (w1 := World (table w) (events w ++ [OpenSession (next_session w); Begin (next_session w)])
                   (log w) (S (next_session w)) (clock w)).
  destruct (count_run E cls [] [] w1 (Forall_nil _) eq_refl) as [w' [Hc [Ht _]]].
  unfold mbind at 1 2; rewrite Hc; simpl in Ht |- *.
  rewrite filter_row_matches_nil.
  apply Nat.ltb_lt in Hn; rewrite Hn; simpl.
  eexists; split; [reflexivity|exact Ht].
Qed.

(** [ProjectService.update_project] calls [ProjectCRUD.update] with no
    filter: once the project is found and the caller is allowed, the update
    counts every row of the table, so with [n >= 2] projects stored it
    raises [DBError] wrapping [ValueError("Expected exactly one record to
    update, found n.")] and changes nothing. *)
Theorem update_project_unfiltered (E : env) (ADMIN : Z) (ProjectCRUD : crud)
  (user : current_user) (c : string) (attrs : dict) (pid : pyval) (d : dict) (owner : pyval)
  (w w1 : world) :
  dict_get attrs "id" = Some pid ->
  get E ProjectCRUD [] [("id", pid)] w = (Ok (PDict d), w1) ->
  dict_get d "owner" = Some owner ->
  (pyval_eqb owner (user_id user) = true \/ (ADMIN <= user_role user)%Z) ->
  1 < List.length (table w1) ->
  exists w2, update_project E ADMIN ProjectCRUD user (PObj c attrs) w
             = (SvcErr (Raised (DBError "update" (ValueError ("Expected exactly one record to update, found "
                                                              ++ nat_str (List.length (table w1)) ++ ".")))), w2)
    /\ table w2 = table w1.
Proof.
  intros Hid Hget Hown Hperm Hn.
  unfold update_project, attr; rewrite Hid, Hget.
  assert (Ht : truthy (PDict d) = true) by (destruct d; [discriminate|reflexivity]).
  rewrite Ht; simpl negb; cbv iota.
  unfold subscript; rewrite Hown.
  assert (Hp : negb (pyval_eqb owner (user_id user)) && (user_role user <? ADMIN)%Z = false).
  { destruct Hperm as [H|H]; [rewrite H; reflexivity|].
    apply andb_false_intro2, Z.ltb_ge; exact H. }
  rewrite Hp; simpl model_dump; cbv iota.
  destruct (update_unfiltered_refused E ProjectCRUD
              (PDict (dict_set attrs "updated_by" (user_id user))) w1 Hn) as [w2 [Hu Ht2]].
  rewrite Hu. exists w2; split; [reflexivity|exact Ht2].
Qed.

Lemma update_project_unfiltered_witness :
  exists w2, update_project eq_env 10 (BaseCRUD_of owned_model) (CurrentUser (PInt 7) 0)
               (PObj "ProjectUpdate" [("id", PInt 1); ("name", PStr "r")]) (World owned_rows [] [] 0 (PInt 0))
             = (SvcErr (Raised (DBError "update" (ValueError "Expected exactly one record to update, found 2."))), w2)
    /\ table w2 = owned_rows.
Proof.
  exact (update_project_unfiltered eq_env 10 (BaseCRUD_of owned_model) (CurrentUser (PInt 7) 0)
           "ProjectUpdate" [("id", PInt 1); ("name", PStr "r")] (PInt 1)
           [("id", PInt 1); ("name", PStr "p"); ("owner", PInt 7)] (PInt 7)
           (World owned_rows [] [] 0 (PInt 0))
           (World owned_rows [OpenSession 0; Begin 0; Commit 0; CloseSession 0] [] 1 (PInt 0))
           eq_refl ltac:(vm_compute; reflexivity) eq_refl (or_introl eq_refl) ltac:(simpl; lia)).
Defined.
(** The permission checks of [update_project] and [is_del_project] differ:
    a caller who is not the owner and whose role is above [ADMIN] is refused
    by [is_del_project] with [PROJECT_No_PERMISSION] but never by
    [update_project]. *)
Theorem project_permission_divergence (E : env) (ADMIN : Z)
  (ProjectCRUD : crud) (user : current_user) (c : string) (attrs : dict) (pid : pyval)
  (d : dict) (owner : pyval) (w w1 : world) :
  dict_get attrs "id" = Some pid ->
  get E ProjectCRUD [] [("id", pid)] w = (Ok (PDict d), w1) ->
  dict_get d "owner" = Some owner ->
  pyval_eqb owner (user_id user) = false ->
  (ADMIN < user_role user)%Z ->
  is_del_project E ADMIN ProjectCRUD user pid w
    = (SvcErr (CustomException "PROJECT_No_PERMISSION"), w1)
  /\ fst (update_project E ADMIN ProjectCRUD user (PObj c attrs) w)
     <> SvcErr (CustomException "PROJECT_No_PERMISSION").
Proof.
  intros Hid Hget Hown Hne Hlt.
  assert (Ht : truthy (PDict d) = true) by (destruct d; [discriminate|reflexivity]).
  split.
  - unfold is_del_project; rewrite Hget, Ht; simpl negb; cbv iota.
    unfold subscript; rewrite Hown, Hne.
    assert (E1 : Z.eqb (user_role user) ADMIN = false) by (apply Z.eqb_neq; lia).
    rewrite E1; reflexivity.
  - unfold update_project, attr; rewrite Hid, Hget, Ht; simpl negb; cbv iota.
    unfold subscript; rewrite Hown, Hne.
    assert (E1 : (user_role user <? ADMIN)%Z = false) by (apply Z.ltb_ge; lia).
    rewrite E1; simpl model_dump; cbv iota.
    destruct (update E ProjectCRUD [] [("obj", PDict (dict_set attrs "updated_by" (user_id user)))] w1)
      as [[u|e] w2]; simpl; discriminate.
Qed.

Lemma project_permission_divergence_witness :
  is_del_project eq_env 10 (BaseCRUD_of owned_model) (CurrentUser (PInt 9) 20) (PInt 1)
    (World owned_rows [] [] 0 (PInt 0))
  = (SvcErr (CustomException "PROJECT_No_PERMISSION"),
     World owned_rows [OpenSession 0; Begin 0; Commit 0; CloseSession 0] [] 1 (PInt 0))
  /\ fst (update_project eq_env 10 (BaseCRUD_of owned_model) (CurrentUser (PInt 9) 20)
            (PObj "ProjectUpdate" [("id", PInt 1); ("name", PStr "r")]) (World owned_rows [] [] 0 (PInt 0)))
     <> SvcErr (CustomException "PROJECT_No_PERMISSION").
Proof.
  exact (project_permission_divergence eq_env 10 (BaseCRUD_of owned_model) (CurrentUser (PInt 9) 20)
           "ProjectUpdate" [("id", PInt 1); ("name", PStr "r")] (PInt 1)
           [("id", PInt 1); ("name", PStr "p"); ("owner", PInt 7)] (PInt 7)
           (World owned_rows [] [] 0 (PInt 0))
           (World owned_rows [OpenSession 0; Begin 0; Commit 0; CloseSession 0] [] 1 (PInt 0))
           eq_refl eq_refl eq_refl eq_refl ltac:(simpl; lia)).
Defined.

(** A caller who is not the owner of an existing project and whose role is
    below [ADMIN] is refused by both [update_project] and [is_del_project]
    with [PROJECT_No_PERMISSION], and nothing is written. *)
Theorem project_non_owner_below_admin (E : env) (ADMIN : Z)
  (ProjectCRUD : crud) (user : current_user) (c : string) (attrs : dict) (pid : pyval)
  (d : dict) (owner : pyval) (w w1 : world) :
  dict_get attrs "id" = Some pid ->
  get E ProjectCRUD [] [("id", pid)] w = (Ok (PDict d), w1) ->
  dict_get d "owner" = Some owner ->
  pyval_eqb owner (user_id user) = false ->
  (user_role user < ADMIN)%Z ->
  is_del_project E ADMIN ProjectCRUD user pid w
    = (SvcErr (CustomException "PROJECT_No_PERMISSION"), w1)
  /\ update_project E ADMIN ProjectCRUD user (PObj c attrs) w
    = (SvcErr (CustomException "PROJECT_No_PERMISSION"), w1).
Proof.
  intros Hid Hget Hown Hne Hlt.
  assert (Ht : truthy (PDict d) = true) by (destruct d; [discriminate|reflexivity]).
  split.
  - unfold is_del_project; rewrite Hget, Ht; simpl negb; cbv iota.
    unfold subscript; rewrite Hown, Hne.
    assert (E1 : Z.eqb (user_role user) ADMIN = false) by (apply Z.eqb_neq; lia).
    rewrite E1; reflexivity.
  - unfold update_project, attr; rewrite Hid, Hget, Ht; simpl negb; cbv iota.
    unfold subscript; rewrite Hown, Hne.
    assert (E1 : (user_role user <? ADMIN)%Z = true) by (apply Z.ltb_lt; lia).
    rewrite E1; reflexivity.
Qed.

Lemma project_non_owner_below_admin_witness :
  is_del_project eq_env 10 (BaseCRUD_of owned_model) (CurrentUser (PInt 9) 0) (PInt 1)
    (World owned_rows [] [] 0 (PInt 0))
  = (SvcErr (CustomException "PROJECT_No_PERMISSION"),
     World owned_rows [OpenSession 0; Begin 0; Commit 0; CloseSession 0] [] 1 (PInt 0))
  /\ update_project eq_env 10 (BaseCRUD_of owned_model) (CurrentUser (PInt 9) 0)
       (PObj "ProjectUpdate" [("id", PInt 1); ("name", PStr "r")]) (World owned_rows [] [] 0 (PInt 0))
  = (SvcErr (CustomException "PROJECT_No_PERMISSION"),
     World owned_rows [OpenSession 0; Begin 0; Commit 0; CloseSession 0] [] 1 (PInt 0)).
Proof.
  exact (project_non_owner_below_admin eq_env 10 (BaseCRUD_of owned_model) (CurrentUser (PInt 9) 0)
           "ProjectUpdate" [("id", PInt 1); ("name", PStr "r")] (PInt 1)
           [("id", PInt 1); ("name", PStr "p"); ("owner", PInt 7)] (PInt 7)
           (World owned_rows [] [] 0 (PInt 0))
           (World owned_rows [OpenSession 0; Begin 0; Commit 0; CloseSession 0] [] 1 (PInt 0))
           eq_refl eq_refl eq_refl eq_refl ltac:(simpl; lia)).
Defined.


Lemma lower_authorization : lower "Authorization" = "authorization".
Proof. reflexivity. Qed.

Lemma headers_get_absent (headers : list (string * string)) :
  (forall kv, In kv headers -> fst kv <> "authorization") ->
  headers_get headers "Authorization" = None.
Proof.
  intros H; unfold headers_get; rewrite lower_authorization.
  destruct (find (fun kv => String.eqb (fst kv) "authorization") headers) as [[k v]|] eqn:F;
    [|reflexivity].
  apply find_some in F as [Hin Heq]; apply String.eqb_eq in Heq.
  exfalso; exact (H _ Hin Heq).
Qed.

(** [JwtAuthMiddleware.authenticate] leaves the request unauthenticated,
    whatever the token checks would do, when no header is named
    [authorization], and when the first such header, wherever it stands
    among the headers, has a value whose scheme (the part before its first
    space, or the whole value when it has none) is not [bearer] in any
    letter case. *)
Theorem authenticate_without_bearer
  (decode_jwt_token : string -> auth_exn + pyval) (get_current_user : pyval -> auth_exn + pyval)
  (model_validate_user : pyval -> auth_exn + pyval) (headers : list (string * string)) :
  ((forall kv, In kv headers -> fst kv <> "authorization") ->
   authenticate decode_jwt_token get_current_user model_validate_user headers = inr None)
  /\ (forall v, headers_get headers "Authorization" = Some v ->
      lower (fst (get_authorization_scheme_param v)) <> "bearer" ->
      authenticate decode_jwt_token get_current_user model_validate_user headers = inr None).
Proof.
  split.
  - intros H; unfold authenticate; rewrite headers_get_absent by exact H; reflexivity.
  - intros v Hh Hb; unfold authenticate; rewrite Hh.
    destruct (String.eqb v "") eqn:Ev; [reflexivity|].
    destruct (get_authorization_scheme_param v) as [scheme token]; simpl in Hb.
    apply String.eqb_neq in Hb; rewrite Hb; reflexivity.
Qed.

Lemma authenticate_without_bearer_witness :
  (forall kv, In kv [("host", "example.org")] -> fst kv <> "authorization")
  /\ authenticate (fun t => inr (PStr t)) (fun s => inr s) (fun u => inr u)
       [("host", "example.org")] = inr None
  /\ headers_get [("host", "example.org"); ("authorization", "Basic dXNlcjpwdw==")] "Authorization"
     = Some "Basic dXNlcjpwdw=="
  /\ lower (fst (get_authorization_scheme_param "Basic dXNlcjpwdw==")) <> "bearer"
  /\ authenticate (fun t => inr (PStr t)) (fun s => inr s) (fun u => inr u)
       [("host", "example.org"); ("authorization", "Basic dXNlcjpwdw==")] = inr None.
Proof.
  assert (H1 : forall kv, In kv [("host", "example.org")] -> fst kv <> "authorization")
    by (intros kv [<-|[]]; discriminate).
  assert (H2 : lower (fst (get_authorization_scheme_param "Basic dXNlcjpwdw==")) <> "bearer")
    by (vm_compute; discriminate).
  refine (conj H1 (conj _ (conj eq_refl (conj H2 _)))).
  - exact (proj1 (authenticate_without_bearer (fun t => inr (PStr t)) (fun s => inr s) (fun u => inr u)
                    [("host", "example.org")]) H1).
  - exact (proj2 (authenticate_without_bearer (fun t => inr (PStr t)) (fun s => inr s) (fun u => inr u)
                    [("host", "example.org"); ("authorization", "Basic dXNlcjpwdw==")])
             "Basic dXNlcjpwdw==" eq_refl H2).
Defined.

(** [JwtAuthMiddleware.authenticate] when the first [authorization] header,
    wherever it stands, has the scheme [bearer] in any letter case: the
    token checked is the part of the value after its first space.  A
    [TokenError] raised by any of the three checks (decoding, user lookup,
    validation) becomes an authentication error with the
    [WWW-Authenticate: Bearer] header, another error raised by any of them
    one with its code and message (500 and ["Internal Server Error"] by
    default), and success authenticates the validated user. *)
Theorem authenticate_bearer
  (decode_jwt_token : string -> auth_exn + pyval) (get_current_user : pyval -> auth_exn + pyval)
  (model_validate_user : pyval -> auth_exn + pyval) (headers : list (string * string)) (v : string) :
  headers_get headers "Authorization" = Some v ->
  lower (fst (get_authorization_scheme_param v)) = "bearer" ->
  let token := snd (get_authorization_scheme_param v) in
  let fails e :=
    decode_jwt_token token = inl e
    \/ exists sub, decode_jwt_token token = inr sub
                   /\ (get_current_user sub = inl e
                       \/ exists u, get_current_user sub = inr u /\ model_validate_user u = inl e) in
  (forall message, fails (TokenError message) ->
     authenticate decode_jwt_token get_current_user model_validate_user headers
     = inl (AuthenticationError None (Some message) (Some [("WWW-Authenticate", "Bearer")])))
  /\ (forall code message, fails (OtherError code message) ->
     authenticate decode_jwt_token get_current_user model_validate_user headers
     = inl (AuthenticationError (Some (match code with Some c => c | None => 500%Z end))
              (Some (match message with Some m => m | None => "Internal Server Error" end))
              None))
  /\ (forall sub u user, decode_jwt_token token = inr sub -> get_current_user sub = inr u ->
     model_validate_user u = inr user ->
     authenticate decode_jwt_token get_current_user model_validate_user headers
     = inr (Some (["authenticated"], user))).
Proof.
  intros Hh Hb token fails.
  assert (A : authenticate decode_jwt_token get_current_user model_validate_user headers
              = match match decode_jwt_token token with
                      | inl e => inl e
                      | inr sub => match get_current_user sub with
                                   | inl e => inl e
                                   | inr cu => model_validate_user cu end end with
                | inl (TokenError message) =>
                    inl (AuthenticationError None (Some message) (Some [("WWW-Authenticate", "Bearer")]))
                | inl (OtherError code message) =>
                    inl (AuthenticationError
                           (Some (match code with Some c => c | None => 500%Z end))
                           (Some (match message with Some m => m | None => "Internal Server Error" end))
                           None)
                | inr user => inr (Some (["authenticated"], user))
                end).
  { unfold authenticate; rewrite Hh.
    destruct (String.eqb v "") eqn:Ev.
    - apply String.eqb_eq in Ev; subst v; discriminate Hb.
    - unfold token; destruct (get_authorization_scheme_param v) as [scheme tok]; simpl in Hb |- *.
      rewrite Hb; reflexivity. }
  assert (F : forall e, fails e ->
                match decode_jwt_token token with
                | inl e => inl e
                | inr sub => match get_current_user sub with
                             | inl e => inl e
                             | inr cu => model_validate_user cu end end = inl e).
  { intros e [Hd|[sub [Hd [Hg|[u [Hg Hm]]]]]]; rewrite Hd; [reflexivity|rewrite Hg; reflexivity|].
    rewrite Hg, Hm; reflexivity. }
  split; [|split].
  - intros m Hf; rewrite A, (F _ Hf); reflexivity.
  - intros c m Hf; rewrite A, (F _ Hf); reflexivity.
  - intros sub u user Hd Hg Hm; rewrite A, Hd, Hg, Hm; reflexivity.
Qed.

Lemma authenticate_bearer_witness :
  authenticate (fun t => inr (PStr t)) (fun s => inr s) (fun u => inr u)
    [("host", "example.org"); ("authorization", "BeArEr abc")] = inr (Some (["authenticated"], PStr "abc"))
  /\ authenticate (fun t => inr (PStr t)) (fun s => inl (TokenError "expired")) (fun u => inr u)
       [("authorization", "bearer abc")]
     = inl (AuthenticationError None (Some "expired") (Some [("WWW-Authenticate", "Bearer")])).
Proof.
  split.
  - exact (proj2 (proj2 (authenticate_bearer (fun t => inr (PStr t)) (fun s => inr s) (fun u => inr u)
             [("host", "example.org"); ("authorization", "BeArEr abc")] "BeArEr abc" eq_refl eq_refl))
             (PStr "abc") (PStr "abc") (PStr "abc") eq_refl eq_refl eq_refl).
  - exact (proj1 (authenticate_bearer (fun t => inr (PStr t)) (fun s => inl (TokenError "expired"))
             (fun u => inr u) [("authorization", "bearer abc")] "bearer abc" eq_refl eq_refl)
             "expired" (or_intror (ex_intro _ (PStr "abc") (conj eq_refl (or_introl eq_refl))))).
Defined.








